(** * Scope Shield bot: the thread store and the webhook dispatcher

    A shallow embedding of [src/index.js].  The file follows the source
    top-down: JavaScript values and the string primitives the handler
    uses, the thread map with its file mirror, the assistant interaction
    ([runAssistant]) and the webhook endpoint, then the properties.

    Conventions of the embedding.
    - A JavaScript string is a [string]: the sequence of its code units,
      kept where they are below 256.  Every literal of the program is ASCII.
    - A JSON number is kept where it is an integer ([VNum]); objects and
      arrays do not occur as ids and are left out of [JsVal].
    - [threads] is a JavaScript object used as a dictionary: a
      [gmap string JsVal].  Every key the program uses contains a colon,
      so a lookup never reaches [Object.prototype].
    - An [async] function is a computation in the monad [M]: it threads
      the process state and the state of the outside world, and ends in a
      value or in a thrown error (a rejected promise).  One request is run
      to its end before the next: interleaving at [await] is not modelled. *)

From Stdlib Require Import ZArith String Ascii DecimalString DecimalZ Decimal DecimalPos.
From stdpp Require Import gmap strings list fin_maps.

Local Open Scope Z_scope.
Local Open Scope string_scope.

(** ** JavaScript values *)

Inductive JsVal : Type :=
  | VUndefined
  | VNull
  | VBool (b : bool)
  | VNum (z : Z)
  | VStr (s : string).

#[global] Instance JsVal_eq_dec : EqDecision JsVal.
Proof. solve_decision. Defined.

(** [ToBoolean]: what [if (v)], [!v] and [v || w] test. *)
Definition truthy (v : JsVal) : bool :=
  match v with
  | VUndefined | VNull => false
  | VBool b => b
  | VNum z => negb (z =? 0)%Z
  | VStr s => negb (String.eqb s "")
  end.

(** [Number::toString] of an integer below 10^21 is its decimal numeral. *)
Definition Z_to_string (z : Z) : string :=
  NilZero.string_of_int (Z.to_int z).

(** [ToString], as a template literal applies it to a substitution. *)
Definition ToString (v : JsVal) : string :=
  match v with
  | VUndefined => "undefined"
  | VNull => "null"
  | VBool true => "true"
  | VBool false => "false"
  | VNum z => Z_to_string z
  | VStr s => s
  end.

(** ** String primitives *)

Module JsString.

(** The white space and line terminators of [String.prototype.trim]
    among the code units below 256: TAB, LF, VT, FF, CR, SPACE, NBSP. *)
Definition is_ws (c : ascii) : bool :=
  let n := nat_of_ascii c in
  ((9 <=? n)%nat && (n <=? 13)%nat) || (n =? 32)%nat || (n =? 160)%nat.

Fixpoint trimStart (s : string) : string :=
  match s with
  | EmptyString => EmptyString
  | String c s' => if is_ws c then trimStart s' else s
  end.

Fixpoint trimEnd (s : string) : string :=
  match s with
  | EmptyString => EmptyString
  | String c s' =>
      match trimEnd s' with
      | EmptyString => if is_ws c then EmptyString else String c EmptyString
      | t => String c t
      end
  end.

(** [s.trim()] *)
Definition trim (s : string) : string := trimEnd (trimStart s).

Fixpoint drop (n : nat) (s : string) : string :=
  match n, s with
  | O, _ => s
  | S _, EmptyString => EmptyString
  | S n', String _ s' => drop n' s'
  end.

(** [s.includes(p)]: [p] occurs in [s] as a substring. *)
Fixpoint includes (s p : string) : bool :=
  String.prefix p s ||
  match s with
  | EmptyString => false
  | String _ s' => includes s' p
  end.

(** [s.replace(p, r)] for a string pattern [p]: the leftmost occurrence
    of [p] is replaced, and [s] is returned as it is when there is none.
    The replacement is taken literally, which is what JavaScript does
    when [r] has no dollar sign; the program passes the empty string. *)
Fixpoint replace (s p r : string) : string :=
  if String.prefix p s then r +:+ drop (String.length p) s
  else match s with
       | EmptyString => EmptyString
       | String c s' => String c (replace s' p r)
       end.

(** Is [s] made of white space only? *)
Fixpoint all_ws (s : string) : bool :=
  match s with
  | EmptyString => true
  | String c s' => is_ws c && all_ws s'
  end.

(** The first, and the last, code unit of [s] is not white space. *)
Definition starts_solid (s : string) : bool :=
  match s with
  | EmptyString => false
  | String c _ => negb (is_ws c)
  end.

Fixpoint ends_solid (s : string) : bool :=
  match s with
  | EmptyString => false
  | String c EmptyString => negb (is_ws c)
  | String _ s' => ends_solid s'
  end.

(** Does the code unit [c] occur in [s]? *)
Fixpoint occurs (c : ascii) (s : string) : bool :=
  match s with
  | EmptyString => false
  | String d s' => Ascii.eqb c d || occurs c s'
  end.

End JsString.

(** ** Thread persistence: the key *)

(** [function getThreadKey(chatId, userId)] *)
Definition getThreadKey (chatId userId : JsVal) : string :=
  ToString chatId +:+ ":" +:+ ToString userId.

(** The ids the chat platform issues: integers a double holds exactly. *)
Definition MAX_SAFE_INTEGER : Z := 2 ^ 53 - 1.

Definition reasonable_id (v : JsVal) : bool :=
  match v with
  | VNum z => (Z.abs z <=? MAX_SAFE_INTEGER)%Z
  | _ => false
  end.

(** Any value but a string: the values [ToString] keeps apart. *)
Definition not_a_string (v : JsVal) : bool :=
  match v with
  | VStr _ => false
  | _ => true
  end.

(** ** Inbound webhook deliveries *)

(** [message.chat] *)
Record Chat : Type := {
  chat_id : JsVal;
  chat_type : JsVal
}.

(** [message.from] *)
Record User : Type := {
  user_id : JsVal
}.

(** [req.body.message].  [text] and [from] are optional fields of the
    platform's message object; [text] is a string when present. *)
Record Message : Type := {
  text : option string;
  chat : Chat;
  from : option User;
  message_id : JsVal
}.

(** [req]: the parsed JSON body with its optional [message]. *)
Record Request : Type := {
  body_message : option Message
}.

(** What [res] is left with once the handler has answered. *)
Record Response : Type := {
  statusCode : Z;
  body : string
}.

(** The status texts Express looks up, for the codes a handler of this
    kind may send; a code without a text is sent as its numeral. *)
Definition statusMessage (code : Z) : string :=
  if (code =? 200)%Z then "OK"
  else if (code =? 400)%Z then "Bad Request"
  else if (code =? 403)%Z then "Forbidden"
  else if (code =? 404)%Z then "Not Found"
  else if (code =? 500)%Z then "Internal Server Error"
  else Z_to_string code.

(** [res.sendStatus(code)]: the status is set and its text sent as the
    body. *)

Definition sendStatus (code : Z) : Response :=
  {| statusCode := code; body := statusMessage code |}.

(** ** Messages of a thread, as the assistant backend lists them *)

Record TextObject : Type := {
  value : string
}.

(** One element of [content]: a text part carries [text], any other
    kind of part (an image, say) does not. *)
Record ContentPart : Type := {
  part_text : option TextObject
}.

Record ThreadMessage : Type := {
  role : string;
  content : option (list ContentPart)
}.

(** ** The persisted file *)

(** What [/data/threads.json] holds: nothing, text [JSON.parse] rejects,
    or the JSON object last written. *)
Inductive FileContent : Type :=
  | Absent
  | Garbled
  | Json (m : gmap string JsVal).

(** [JSON.stringify(threads, null, 2)], up to layout: a property whose
    value is [undefined] is left out. *)
Definition JSON_stringify (threads : gmap string JsVal) : FileContent :=
  Json (filter (λ kv, kv.2 ≠ VUndefined) threads).

(** The start-up block: [existsSync], then [JSON.parse(readFileSync(..))]
    under [try], with the empty object in every other case. *)
Definition loadThreads (f : FileContent) : gmap string JsVal :=
  match f with
  | Json m => m
  | Absent | Garbled => ∅
  end.

(** ** The outside world and the process state *)

(** How a call ends: with a value, or with a thrown error (its message). *)
Inductive Outcome (A : Type) : Type :=
  | Returned (a : A)
  | Thrown (err : string).
Arguments Returned {A} a.
Arguments Thrown {A} err.

(** The calls that leave the process, with their arguments. *)
Inductive Call : Type :=
  | ThreadsCreate
  | MessagesCreate (threadId : JsVal) (role content : string)
  | RunsCreateAndPoll (threadId : JsVal) (assistant_id : string)
  | MessagesList (threadId : JsVal) (limit : Z)
  | SendMessage (chatId : JsVal) (text : string)
                (reply_to_message_id : option JsVal)
  | WriteFileSync (path : string) (data : FileContent).

(** The external collaborators.  [W] is whatever state they keep; each
    call may depend on it and change it, and decides its own outcome. *)
Record World (W : Type) : Type := {
  (** [openai.beta.threads.create()], observed through [thread.id] *)
  threads_create : W → Outcome JsVal * W;
  (** [openai.beta.threads.messages.create(threadId, {role, content})] *)
  messages_create : JsVal → string → string → W → Outcome unit * W;
  (** [openai.beta.threads.runs.createAndPoll], observed through [run.status] *)
  runs_createAndPoll : JsVal → string → W → Outcome string * W;
  (** [openai.beta.threads.messages.list], observed through [messages.data] *)
  messages_list : JsVal → Z → W → Outcome (list ThreadMessage) * W;
  (** [bot.sendMessage(chatId, text, options)] *)
  sendMessage : JsVal → string → option JsVal → W → Outcome unit * W;
  (** [fs.writeFileSync(path, data)]: does the write go through? *)
  writeFileSync : string → FileContent → W → Outcome unit * W
}.
Arguments threads_create {W} _ _.
Arguments messages_create {W} _ _ _ _ _.
Arguments runs_createAndPoll {W} _ _ _ _.
Arguments messages_list {W} _ _ _ _.
Arguments sendMessage {W} _ _ _ _ _.
Arguments writeFileSync {W} _ _ _ _.

(** The process: the module-level [threads], the file behind it, what
    was written to [console.error], the calls made so far (oldest first)
    and the state of the world. *)
Record State (W : Type) : Type := {
  threads : gmap string JsVal;
  file : FileContent;
  console : list string;
  calls : list Call;
  outside : W
}.
Arguments threads {W} _.
Arguments file {W} _.
Arguments console {W} _.
Arguments calls {W} _.
Arguments outside {W} _.
Arguments Build_State {W} _ _ _ _ _.

(** The state the process serves its first request in. *)
Definition boot {W : Type} (f : FileContent) (w : W) : State W :=
  {| threads := loadThreads f; file := f; console := []; calls := [];
     outside := w |}.

(** *** Computations *)

Definition M (W A : Type) : Type := State W → Outcome A * State W.

Definition ret {W A : Type} (a : A) : M W A := λ s, (Returned a, s).

Definition throw {W A : Type} (err : string) : M W A := λ s, (Thrown err, s).

Definition bind {W A B : Type} (m : M W A) (k : A → M W B) : M W B :=
  λ s, match m s with
       | (Returned a, s') => k a s'
       | (Thrown err, s') => (Thrown err, s')
       end.

(** [try { m } catch (err) { h }] *)
Definition try_catch {W A : Type} (m : M W A) (h : string → M W A) : M W A :=
  λ s, match m s with
       | (Returned a, s') => (Returned a, s')
       | (Thrown err, s') => h err s'
       end.

Declare Scope js_scope.
Delimit Scope js_scope with js.
Notation "'let!' x ':=' m 'in' k" := (bind m (λ x, k))
  (at level 10, x name, m at level 100, k at level 200) : js_scope.
Notation "'do!' m 'in' k" := (bind m (λ _, k))
  (at level 10, m at level 100, k at level 200) : js_scope.

(** ** The program *)

Section Program.

Context {W : Type}.
(** The collaborators the process talks to. *)
Variable world : World W.
(** The two settings of [process.env] the request path reads;
    [BOT_USERNAME] is ["ScopeShield_Bot"] when the variable is not set. *)
Variable BOT_USERNAME : string.
Variable ASSISTANT_ID : string.

Local Open Scope js_scope.

(** An external call: it is recorded, and the world decides its outcome. *)
Definition external {A : Type} (c : Call) (f : W → Outcome A * W) : M W A :=
  λ s, let '(r, w) := f (outside s) in
       (r, {| threads := threads s; file := file s; console := console s;
              calls := calls s ++ [c]; outside := w |}).

(** [console.error(...)] *)
Definition console_error (line : string) : M W unit :=
  λ s, (Returned tt,
        {| threads := threads s; file := file s;
           console := console s ++ [line]; calls := calls s;
           outside := outside s |}).

(** *** Thread persistence *)

Definition THREADS_FILE : string := "/data/threads.json".

(** [threads[key]]: the property, [undefined] when there is none. *)
Definition property (o : gmap string JsVal) (key : string) : JsVal :=
  default VUndefined (o !! key).

(** [threads[key] = v] *)
Definition assign (key : string) (v : JsVal) : M W unit :=
  λ s, (Returned tt,
        {| threads := <[key := v]> (threads s); file := file s;
           console := console s; calls := calls s; outside := outside s |}).

(** [function saveThreads()].  A write that goes through leaves the
    file holding the serialised map; one that throws is taken to leave
    the file as it was. *)
Definition saveThreads : M W unit :=
  λ s, let data := JSON_stringify (threads s) in
       match external (WriteFileSync THREADS_FILE data)
                      (writeFileSync world THREADS_FILE data) s with
       | (Returned _, s') =>
           (Returned tt,
            {| threads := threads s'; file := data; console := console s';
               calls := calls s'; outside := outside s' |})
       | (Thrown err, s') => (Thrown err, s')
       end.

(** [async function getOrCreateThread(chatId, userId)] *)
Definition getOrCreateThread (chatId userId : JsVal) : M W JsVal :=
  let key := getThreadKey chatId userId in
  λ s,
    if truthy (property (threads s) key) then
      ret (property (threads s) key) s
    else
      (let! thread_id := external ThreadsCreate (threads_create world) in
       do! assign key thread_id in
       do! saveThreads in
       ret thread_id) s.

(** *** Assistant interaction *)

(** [messages.data.find((m) => m.role === "assistant")] *)
Definition find_assistant (data : list ThreadMessage) : option ThreadMessage :=
  List.find (λ m, String.eqb (role m) "assistant") data.

(** [m.content?.[0]?.text?.value]: the text of the first part. *)
Definition primary_text (m : ThreadMessage) : option string :=
  parts ← content m;
  part ← head parts;
  t ← part_text part;
  Some (value t).

(** The value [runAssistant] returns:
    [assistantMessage?.content?.[0]?.text?.value || "No response generated."] *)
Definition reply_text (data : list ThreadMessage) : string :=
  let assistantMessage := find_assistant data in
  match assistantMessage ≫= primary_text with
  | Some v => if String.eqb v "" then "No response generated." else v
  | None => "No response generated."
  end.

(** [async function runAssistant(chatId, userId, userText)] *)
Definition runAssistant (chatId userId : JsVal) (userText : string)
  : M W string :=
  let! threadId := getOrCreateThread chatId userId in
  do! external (MessagesCreate threadId "user" userText)
               (messages_create world threadId "user" userText) in
  let! status := external (RunsCreateAndPoll threadId ASSISTANT_ID)
                          (runs_createAndPoll world threadId ASSISTANT_ID) in
  if negb (String.eqb status "completed") then
    throw ("Assistant run failed with status: " +:+ status)
  else
    let! data := external (MessagesList threadId 5)
                          (messages_list world threadId 5) in
    ret (reply_text data).

(** *** Webhook endpoint *)

(** [bot.sendMessage(chatId, text, { reply_to_message_id })], and the
    same call without options when [reply_to] is [None]. *)
Definition bot_sendMessage (chatId : JsVal) (text : string)
    (reply_to : option JsVal) : M W unit :=
  external (SendMessage chatId text reply_to)
           (sendMessage world chatId text reply_to).

Definition mentionTag : string := "@" +:+ BOT_USERNAME.

(** Where the first half of the handler leaves a delivery: answered at
    once with nothing done, or on its way to the assistant. *)
Inductive Routing : Type :=
  | Ignore
  | Forward (chatId userId : JsVal) (text : string) (message : Message).

(** The handler up to its [try]: the two early returns and the
    clean-up of the text.  No call is made in this part. *)
Definition route (req : Request) : Routing :=
  match body_message req with
  | None => Ignore
  | Some message =>
      match text message with
      | None => Ignore
      | Some raw =>
          if String.eqb raw "" then Ignore
          else
            let chatId := chat_id (chat message) in
            let userId := default VUndefined (user_id <$> from message) in
            let chatType := chat_type (chat message) in
            let text := JsString.trim raw in
            let isPrivate := bool_decide (chatType = VStr "private") in
            if negb isPrivate && negb (JsString.includes text mentionTag)
            then Ignore
            else
              let text :=
                if negb isPrivate
                then JsString.trim (JsString.replace text mentionTag "")
                else text in
              Forward chatId userId text message
      end
  end.

(** The [try] block with its [catch]. *)
Definition answer (chatId userId : JsVal) (text : string)
    (message : Message) : M W unit :=
  try_catch
    (let! reply := runAssistant chatId userId text in
     bot_sendMessage chatId reply (Some (message_id message)))
    (λ err,
       do! console_error ("Assistant error: " +:+ err) in
       bot_sendMessage chatId "Error processing your request." None).

(** [app.post(`/webhook/${BOT_SECRET}`, async (req, res) => ...)].
    The result is the response sent; a thrown error means the handler
    ended without sending one. *)
Definition webhook (req : Request) : M W Response :=
  match route req with
  | Ignore => ret (sendStatus 200)
  | Forward chatId userId text message =>
      do! answer chatId userId text message in
      ret (sendStatus 200)
  end.

(** The states the process can be in: it starts on a file that yields
    no entry, it handles deliveries one after the other, and it may be
    started again on the file an earlier run left. *)
Inductive Reachable : State W → Prop :=
  | reach_boot f w :
      loadThreads f = ∅ → Reachable (boot f w)
  | reach_webhook s req :
      Reachable s → Reachable (webhook req s).2
  | reach_restart s w :
      Reachable s → Reachable (boot (file s) w).

(** A run of the process from [s]: deliveries handled in sequence. *)
Inductive Run (s : State W) : State W → Prop :=
  | run_here : Run s s
  | run_webhook s' req : Run s s' → Run s (webhook req s').2.

End Program.

(** ** A scripted world

    The collaborators with their outcomes fixed in advance, to run the
    program on concrete deliveries.  Its state counts the threads created. *)
Definition scripted
    (issue : Z → Outcome JsVal) (status : Outcome string)
    (listing : Outcome (list ThreadMessage))
    (send : string → Outcome unit) (write : Outcome unit) : World Z :=
  {| threads_create := λ n, (issue n, (n + 1)%Z);
     messages_create := λ _ _ _ n, (Returned tt, n);
     runs_createAndPoll := λ _ _ n, (status, n);
     messages_list := λ _ _ n, (listing, n);
     sendMessage := λ _ text _ n, (send text, n);
     writeFileSync := λ _ _ n, (write, n) |}.

(** The backend as it behaves: thread ids ["thread_0"], ["thread_1"], ... *)
Definition issue_fresh (n : Z) : Outcome JsVal :=
  Returned (VStr ("thread_" +:+ Z_to_string n)).

(** One assistant-authored text message. *)
Definition assistant_says (v : string) : ThreadMessage :=
  {| role := "assistant";
     content := Some [ {| part_text := Some {| value := v |} |} ] |}.

(** A world in which every call goes through and the assistant says [v]. *)
Definition calm (v : string) : World Z :=
  scripted issue_fresh (Returned "completed") (Returned [assistant_says v])
           (λ _, Returned tt) (Returned tt).

(** A world in which the run ends as ["failed"] and the chat transport
    turns every message down. *)
Definition transport_down : World Z :=
  scripted issue_fresh (Returned "failed") (Returned [])
           (λ _, Thrown "ETELEGRAM: 403 Forbidden") (Returned tt).

(** A text message in a chat of the given kind. *)
Definition text_message (kind : string) (chatId : Z) (sender : option Z)
    (raw : string) : Message :=
  {| text := Some raw;
     chat := {| chat_id := VNum chatId; chat_type := VStr kind |};
     from := (λ u, {| user_id := VNum u |}) <$> sender;
     message_id := VNum 7 |}.

(** An assistant-authored message whose first part is an image, with the
    text in the second part. *)
Definition image_then_text : ThreadMessage :=
  {| role := "assistant";
     content := Some [ {| part_text := None |};
                       {| part_text := Some {| value := "Here is the chart." |} |} ] |}.

(** ** Notions the properties are stated with *)



(** A delivery that carries the message [m]. *)
Definition delivery (m : Message) : Request := {| body_message := Some m |}.

(** What one request may do to the thread store: nothing, or bind one
    key, whose value did not pass [if (threads[key])], to an id the
    backend has just issued; the file is then rewritten from the new
    map, unless the write failed. *)
Definition store_step {W : Type} (world : World W) (s s' : State W) : Prop :=
  (threads s' = threads s ∧ file s' = file s) ∨
  ∃ key id w w',
    truthy (property (threads s) key) = false ∧
    threads_create world w = (Returned id, w') ∧
    threads s' = <[key := id]> (threads s) ∧
    (file s' = file s ∨ file s' = JSON_stringify (threads s')).

(** The messages handed to the chat transport, oldest first. *)
Definition chat_sends (cs : list Call) : list (JsVal * string * option JsVal) :=
  omap (λ c, match c with
             | SendMessage chatId text reply_to => Some (chatId, text, reply_to)
             | _ => None
             end) cs.

(** Every id the map holds passes the test [if (threads[key])]. *)
Definition all_truthy (m : gmap string JsVal) : Prop :=
  ∀ k v, m !! k = Some v → truthy v = true.

(** The backend's side of the contract: a context id is a non-empty
    string, so whatever [threads.create] returns is truthy. *)
Definition issues_truthy_ids {W : Type} (world : World W) : Prop :=
  ∀ w id w', threads_create world w = (Returned id, w') → truthy id = true.

(** The calls that create a thread or write the file, oldest first. *)
Definition store_calls (cs : list Call) : list Call :=
  omap (λ c, match c with
             | ThreadsCreate | WriteFileSync _ _ => Some c
             | _ => None
             end) cs.



(** ** Start-up

    The top level of the module, from the reading of [process.env] to
    [app.listen]. *)

(** [process.env]: each variable is a string or is not set. *)
Record Env : Type := {
  env_TELEGRAM_TOKEN : option string;
  env_OPENAI_API_KEY : option string;
  env_ASSISTANT_ID : option string;
  env_BOT_SECRET : option string;
  env_BOT_USERNAME : option string;
  env_PORT : option string;
  env_RENDER_EXTERNAL_URL : option string
}.

(** [v] as a condition: a variable that is set to a non-empty string. *)
Definition filled (v : option string) : bool :=
  match v with
  | Some s => negb (String.eqb s "")
  | None => false
  end.

(** The string a template literal makes of a variable of [process.env]. *)
Definition env_text (v : option string) : string := default "undefined" v.

(** What the process has set up once it listens. *)
Record Server : Type := {
  srv_threads : gmap string JsVal;
  (** [BOT_USERNAME] and [ASSISTANT_ID] as the handler reads them *)
  srv_BOT_USERNAME : string;
  srv_ASSISTANT_ID : string;
  (** the [url] registered with [setWebhook] *)
  srv_WEBHOOK_URL : string;
  (** the path [app.post] mounts the handler on *)
  srv_webhook_path : string;
  (** the argument of [app.listen] *)
  srv_PORT : JsVal
}.

(** How the top level ends: [process.exit(code)] with what was written
    to the console, the rejection of the top-level [await], or a server
    that listens. *)
Inductive Startup : Type :=
  | Exit (code : Z) (console : list string)
  | Crash (err : string)
  | Listening (srv : Server).

(** The top level.  [fetch url webhook_url] stands for the POST to
    [setWebhook] whose body carries [webhook_url]; it returns the status
    of the response, or throws. *)
Definition startup (env : Env) (f : FileContent)
    (fetch : string → string → Outcome Z) : Startup :=
  let BOT_USERNAME := default "ScopeShield_Bot" (env_BOT_USERNAME env) in
  let PORT := default (VNum 3000) (VStr <$> env_PORT env) in
  if negb (filled (env_TELEGRAM_TOKEN env))
     || negb (filled (env_OPENAI_API_KEY env))
     || negb (filled (env_ASSISTANT_ID env))
     || negb (filled (env_BOT_SECRET env))
     || negb (filled (env_RENDER_EXTERNAL_URL env))
  then Exit 1 ["Missing required environment variables."]
  else
    let threads := loadThreads f in
    let WEBHOOK_URL :=
      env_text (env_RENDER_EXTERNAL_URL env) +:+ "/webhook/"
      +:+ env_text (env_BOT_SECRET env) in
    match fetch ("https://api.telegram.org/bot"
                 +:+ env_text (env_TELEGRAM_TOKEN env) +:+ "/setWebhook")
                WEBHOOK_URL with
    | Thrown err => Crash err
    | Returned _ =>
        Listening
          {| srv_threads := threads;
             srv_BOT_USERNAME := BOT_USERNAME;
             srv_ASSISTANT_ID := env_text (env_ASSISTANT_ID env);
             srv_WEBHOOK_URL := WEBHOOK_URL;
             srv_webhook_path := "/webhook/" +:+ env_text (env_BOT_SECRET env);
             srv_PORT := PORT |}
    end.

(** A complete environment, with the two optional variables left out. *)
Definition sample_env : Env :=
  {| env_TELEGRAM_TOKEN := Some "123:abc";
     env_OPENAI_API_KEY := Some "sk-test";
     env_ASSISTANT_ID := Some "asst_1";
     env_BOT_SECRET := Some "s3cret";
     env_BOT_USERNAME := None;
     env_PORT := None;
     env_RENDER_EXTERNAL_URL := Some "https://bot.example.com" |}.

(** The same with [BOT_USERNAME] set, to the empty string. *)
Definition nameless_env : Env :=
  {| env_TELEGRAM_TOKEN := Some "123:abc";
     env_OPENAI_API_KEY := Some "sk-test";
     env_ASSISTANT_ID := Some "asst_1";
     env_BOT_SECRET := Some "s3cret";
     env_BOT_USERNAME := Some "";
     env_PORT := Some "8080";
     env_RENDER_EXTERNAL_URL := Some "https://bot.example.com" |}.

(** A user-authored message of a thread. *)
Definition user_says (v : string) : ThreadMessage :=
  {| role := "user";
     content := Some [ {| part_text := Some {| value := v |} |} ] |}.


(** A world in which the chat transport turns down everything but the
    fallback message. *)
Definition reply_refused (v : string) : World Z :=
  scripted issue_fresh (Returned "completed") (Returned [assistant_says v])
           (λ text, if String.eqb text "Error processing your request."
                    then Returned tt
                    else Thrown "ETELEGRAM: 400 Bad Request")
           (Returned tt).

(** A world in which the run ends with the given status. *)
Definition run_ends (status : string) : World Z :=
  scripted issue_fresh (Returned status) (Returned [assistant_says "Sure."])
           (λ _, Returned tt) (Returned tt).

(** * Properties *)

(** ** The key *)

Section Key.

Import JsString.

Lemma occurs_app c a b : occurs c (a +:+ b) = occurs c a || occurs c b.
Proof.
  induction a as [|d a IH]; simpl; [done|].
  by rewrite IH, orb_assoc.
Qed.

(** A string is cut at its first colon in one way only. *)
Lemma cut_at_colon a a' b b' :
  occurs ":" a = false → occurs ":" a' = false →
  a +:+ ":" +:+ b = a' +:+ ":" +:+ b' → a = a' ∧ b = b'.
Proof.
  revert a'. induction a as [|c a IH]; intros [|c' a'] Ha Ha' E;
    cbn [String.append] in E; inversion E; subst.
  - done.
  - cbn [occurs] in Ha'. by rewrite Ascii.eqb_refl in Ha'.
  - cbn [occurs] in Ha. by rewrite Ascii.eqb_refl in Ha.
  - cbn [occurs] in Ha, Ha'.
    apply orb_false_elim in Ha as [_ Ha], Ha' as [_ Ha'].
    by destruct (IH a' Ha Ha') as [-> ->].
Qed.

Lemma digits_no_colon d : occurs ":" (NilEmpty.string_of_uint d) = false.
Proof. induction d; simpl; auto. Qed.

Lemma Z_to_string_no_colon z : occurs ":" (Z_to_string z) = false.
Proof.
  unfold Z_to_string, NilZero.string_of_int, NilZero.string_of_uint.
  destruct (Z.to_int z) as [d|d]; destruct d; simpl;
    auto using digits_no_colon.
Qed.

Lemma Z_to_int_not_nil z : Z.to_int z ≠ Pos Nil ∧ Z.to_int z ≠ Neg Nil.
Proof.
  destruct z as [|p|p]; simpl; split; try discriminate;
    intros E; inversion E as [E']; by apply DecimalPos.Unsigned.to_uint_nonnil in E'.
Qed.

(** The numeral reads back as the number it was printed from. *)
Lemma Z_to_string_parse z :
  NilZero.int_of_string (Z_to_string z) = Some (Z.to_int z).
Proof.
  destruct (Z_to_int_not_nil z). by apply NilZero.isi.
Qed.

Lemma Z_to_string_inj z z' : Z_to_string z = Z_to_string z' → z = z'.
Proof.
  intros E. apply DecimalZ.to_int_inj.
  pose proof (Z_to_string_parse z) as P. rewrite E, Z_to_string_parse in P.
  congruence.
Qed.

Lemma ToString_no_colon v :
  not_a_string v = true → occurs ":" (ToString v) = false.
Proof.
  destruct v as [| |[]|z|s]; simpl; try done.
  intros _. apply Z_to_string_no_colon.
Qed.

(** A numeral is none of the words [ToString] prints. *)
Lemma Z_to_string_not_word z w :
  NilZero.int_of_string w = None → Z_to_string z ≠ w.
Proof. intros N E. rewrite <- E, Z_to_string_parse in N. done. Qed.

Lemma ToString_inj v v' :
  not_a_string v = true → not_a_string v' = true →
  ToString v = ToString v' → v = v'.
Proof.
  destruct v as [| |[]|z|s], v' as [| |[]|z'|s']; simpl; try done;
    intros _ _ E;
    try (by apply Z_to_string_not_word in E);
    try (symmetry in E; by apply Z_to_string_not_word in E).
  f_equal. by apply Z_to_string_inj.
Qed.

Lemma getThreadKey_inj c u c' u' :
  not_a_string c = true → not_a_string u = true →
  not_a_string c' = true → not_a_string u' = true →
  getThreadKey c u = getThreadKey c' u' → c = c' ∧ u = u'.
Proof.
  intros Hc Hu Hc' Hu' E. unfold getThreadKey in E.
  apply cut_at_colon in E as [Ec Eu]; auto using ToString_no_colon.
  split; by apply ToString_inj.
Qed.

Lemma reasonable_not_string v : reasonable_id v = true → not_a_string v = true.
Proof. by destruct v. Qed.

End Key.

(** ** Strings: [trim], [includes] and [replace] *)

Section Strings.

Import JsString.
Local Arguments String.append !_ _ / : simpl nomatch.

Lemma trimStart_all_ws w : all_ws w = true → trimStart w = "".
Proof.
  induction w as [|c w IH]; simpl; [done|].
  intros [Hc Hw]%andb_true_iff. rewrite Hc. auto.
Qed.

Lemma trimEnd_all_ws w : all_ws w = true → trimEnd w = "".
Proof.
  induction w as [|c w IH]; simpl; [done|].
  intros [Hc Hw]%andb_true_iff. by rewrite (IH Hw), Hc.
Qed.

Lemma trimStart_pad w x : all_ws w = true → trimStart (w +:+ x) = trimStart x.
Proof.
  induction w as [|c w IH]; simpl; [done|].
  intros [Hc Hw]%andb_true_iff. rewrite Hc. auto.
Qed.

Lemma trimEnd_pad x w : all_ws w = true → trimEnd (x +:+ w) = trimEnd x.
Proof.
  intros Hw. induction x as [|c x IH]; simpl.
  - by apply trimEnd_all_ws.
  - by rewrite IH.
Qed.

(** What [trimStart] removes is white space, and so for [trimEnd]. *)
Lemma trimStart_split s : ∃ w, all_ws w = true ∧ s = w +:+ trimStart s.
Proof.
  induction s as [|c s (w & Hw & E)]; simpl.
  - by exists "".
  - destruct (is_ws c) eqn:Hc.
    + exists (String c w). simpl. rewrite Hc, Hw. split; [done|]. by f_equal.
    + by exists "".
Qed.

Lemma trimEnd_split s : ∃ w, all_ws w = true ∧ s = trimEnd s +:+ w.
Proof.
  induction s as [|c s (w & Hw & E)]; simpl.
  - by exists "".
  - destruct (trimEnd s) as [|d t] eqn:Et.
    + destruct (is_ws c) eqn:Hc.
      * exists (String c w). simpl in *. rewrite Hc, Hw. split; [done|].
        by f_equal.
      * exists w. split; [done|]. simpl. by f_equal.
    + exists w. split; [done|]. simpl. by f_equal.
Qed.

Lemma trim_split s :
  ∃ w1 w2, all_ws w1 = true ∧ all_ws w2 = true ∧ s = w1 +:+ trim s +:+ w2.
Proof.
  destruct (trimStart_split s) as (w1 & H1 & E1).
  destruct (trimEnd_split (trimStart s)) as (w2 & H2 & E2).
  exists w1, w2. unfold trim. by rewrite <- E2.
Qed.

Lemma trim_pad_r x w : all_ws w = true → trim (x +:+ w) = trim x.
Proof.
  intros Hw. unfold trim. induction x as [|c x IH]; simpl.
  - by rewrite (trimStart_all_ws w Hw).
  - destruct (is_ws c); [done|].
    change (String c (x +:+ w)) with (String c x +:+ w).
    by apply trimEnd_pad.
Qed.

Lemma trim_pad w1 x w2 :
  all_ws w1 = true → all_ws w2 = true → trim (w1 +:+ x +:+ w2) = trim x.
Proof.
  intros H1 H2. unfold trim at 1. rewrite (trimStart_pad _ _ H1).
  by apply trim_pad_r.
Qed.

(** *** Occurrences of a pattern that white space cannot be part of *)

Lemma prefix_nil x : String.prefix "" x = true.
Proof. by destruct x. Qed.

Lemma prefix_app_l t x w :
  String.prefix t x = true → String.prefix t (x +:+ w) = true.
Proof.
  revert x. induction t as [|a t IH]; intros x; [by rewrite !prefix_nil|].
  destruct x as [|b x]; simpl; [done|].
  destruct (ascii_dec a b); [apply IH|done].
Qed.

Lemma prefix_length t x :
  String.prefix t x = true → (String.length t ≤ String.length x)%nat.
Proof.
  revert x. induction t as [|a t IH]; intros x; simpl; [lia|].
  destruct x as [|b x]; simpl; [done|].
  destruct (ascii_dec a b); [|done]. intros H%IH. lia.
Qed.

Lemma prefix_ws_head t c x :
  starts_solid t = true → is_ws c = true → String.prefix t (String c x) = false.
Proof.
  destruct t as [|a t]; simpl; [done|]. intros Ha Hc.
  destruct (ascii_dec a c) as [->|]; [|done]. by rewrite Hc in Ha.
Qed.

Lemma prefix_all_ws t w :
  ends_solid t = true → all_ws w = true → String.prefix t w = false.
Proof.
  revert w. induction t as [|a t IH]; intros [|c w]; simpl; try done.
  intros Ht [Hc Hw]%andb_true_iff.
  destruct (ascii_dec a c) as [->|]; [|done].
  destruct t as [|a' t]; [by rewrite Hc in Ht|]. apply IH; [exact Ht|done].
Qed.

Lemma prefix_pad_r t x w :
  ends_solid t = true → all_ws w = true →
  String.prefix t (x +:+ w) = String.prefix t x.
Proof.
  intros Ht Hw. revert x Ht. induction t as [|a t IH]; intros x Ht; [done|].
  destruct x as [|b x].
  - simpl String.append. rewrite (prefix_all_ws _ _ Ht Hw). done.
  - simpl. destruct (ascii_dec a b); [|done].
    destruct t as [|a' t]; [by rewrite !prefix_nil|]. apply IH. exact Ht.
Qed.

Lemma drop_app n x w :
  (n ≤ String.length x)%nat → drop n (x +:+ w) = drop n x +:+ w.
Proof.
  revert x. induction n as [|n IH]; intros [|b x]; simpl; try done; try lia.
  intros H. apply IH. lia.
Qed.

Lemma append_cons c (a b : string) : String c a +:+ b = String c (a +:+ b).
Proof. done. Qed.

Lemma includes_cons c s t :
  includes (String c s) t = String.prefix t (String c s) || includes s t.
Proof. done. Qed.

Lemma replace_cons c s t r :
  replace (String c s) t r =
  if String.prefix t (String c s)
  then r +:+ drop (String.length t) (String c s)
  else String c (replace s t r).
Proof. done. Qed.

Lemma all_ws_cons c w : all_ws (String c w) = true → is_ws c = true ∧ all_ws w = true.
Proof. simpl. by intros ?%andb_true_iff. Qed.

(** [includes]: white space around the text hides no occurrence. *)
Lemma includes_pad_l t w x :
  starts_solid t = true → all_ws w = true →
  includes (w +:+ x) t = includes x t.
Proof.
  intros Ht. induction w as [|c w IH]; [done|].
  intros [Hc Hw]%all_ws_cons.
  by rewrite append_cons, includes_cons, (prefix_ws_head _ _ _ Ht Hc), IH.
Qed.

Lemma includes_all_ws t w :
  ends_solid t = true → all_ws w = true → includes w t = false.
Proof.
  intros Ht. induction w as [|c w IH]; intros Hw.
  - simpl. by destruct t.
  - rewrite includes_cons, (prefix_all_ws _ _ Ht Hw).
    apply all_ws_cons in Hw as [_ Hw]. by apply IH.
Qed.

Lemma includes_pad_r t x w :
  ends_solid t = true → all_ws w = true →
  includes (x +:+ w) t = includes x t.
Proof.
  intros Ht Hw. induction x as [|b x IH].
  - simpl String.append. rewrite (includes_all_ws _ _ Ht Hw).
    simpl. by destruct t.
  - rewrite append_cons, !includes_cons, <- append_cons.
    by rewrite (prefix_pad_r _ _ _ Ht Hw), IH.
Qed.

Lemma includes_trim t s :
  starts_solid t = true → ends_solid t = true →
  includes (trim s) t = includes s t.
Proof.
  intros H1 H2. destruct (trim_split s) as (w1 & w2 & Hw1 & Hw2 & E).
  rewrite E at 2. by rewrite includes_pad_l, includes_pad_r.
Qed.

(** Without any condition on the pattern, an occurrence in the trimmed
    text is an occurrence in the text. *)
Lemma includes_app_l t x w : includes x t = true → includes (x +:+ w) t = true.
Proof.
  induction x as [|b x IH].
  - simpl. destruct t; [|done]. intros _. by destruct w.
  - rewrite append_cons, !includes_cons, <- append_cons.
    intros [H|H]%orb_true_iff.
    + by rewrite (prefix_app_l _ _ _ H).
    + by rewrite (IH H), orb_true_r.
Qed.

Lemma includes_app_r t w x : includes x t = true → includes (w +:+ x) t = true.
Proof.
  intros H. induction w as [|c w IH]; [done|].
  by rewrite append_cons, includes_cons, IH, orb_true_r.
Qed.

Lemma includes_trim_weak t s : includes (trim s) t = true → includes s t = true.
Proof.
  destruct (trim_split s) as (w1 & w2 & _ & _ & E). intros H.
  rewrite E. by apply includes_app_r, includes_app_l.
Qed.

(** [replace]: the first occurrence lies inside the trimmed text. *)
Lemma replace_pad_l t r w x :
  starts_solid t = true → all_ws w = true →
  replace (w +:+ x) t r = w +:+ replace x t r.
Proof.
  intros Ht. induction w as [|c w IH]; [done|].
  intros [Hc Hw]%all_ws_cons.
  by rewrite append_cons, replace_cons, (prefix_ws_head _ _ _ Ht Hc), IH.
Qed.

Lemma replace_all_ws t r w :
  ends_solid t = true → all_ws w = true → replace w t r = w.
Proof.
  intros Ht. induction w as [|c w IH]; intros Hw.
  - simpl. by destruct t.
  - rewrite replace_cons, (prefix_all_ws _ _ Ht Hw).
    apply all_ws_cons in Hw as [_ Hw]. by rewrite IH.
Qed.

Lemma replace_pad_r t x w :
  ends_solid t = true → all_ws w = true →
  replace (x +:+ w) t "" = replace x t "" +:+ w.
Proof.
  intros Ht Hw. induction x as [|b x IH].
  - simpl String.append. rewrite (replace_all_ws _ _ _ Ht Hw).
    simpl. by destruct t.
  - rewrite append_cons, !replace_cons, <- append_cons.
    rewrite (prefix_pad_r _ _ _ Ht Hw).
    destruct (String.prefix t (String b x)) eqn:Hp.
    + change ("" +:+ ?u) with u. apply drop_app. by apply prefix_length.
    + by rewrite IH.
Qed.

(** Trimming the text first, as the handler does, changes nothing. *)
Lemma normalize_trim_first t s :
  starts_solid t = true → ends_solid t = true →
  trim (replace (trim s) t "") = trim (replace s t "").
Proof.
  intros H1 H2. destruct (trim_split s) as (w1 & w2 & Hw1 & Hw2 & E).
  rewrite E at 2.
  rewrite (replace_pad_l _ _ _ _ H1 Hw1), (replace_pad_r _ _ _ H2 Hw2).
  by rewrite trim_pad.
Qed.

End Strings.

(** ** The thread store *)

Section Store.

Context {W : Type} (world : World W).


(** Among truthy values, the test [if (threads[key])] is a test of
    presence. *)
Lemma falsy_is_absent (m : gmap string JsVal) key :
  all_truthy m → truthy (property m key) = false → m !! key = None.
Proof.
  unfold property. intros Hm. destruct (m !! key) as [v|] eqn:E; [|done].
  simpl. by rewrite (Hm _ _ E).
Qed.

(** A hit: the id is returned and nothing at all is done. *)
Lemma getOrCreateThread_hit c u (s : State W) :
  truthy (property (threads s) (getThreadKey c u)) = true →
  getOrCreateThread world c u s
  = (Returned (property (threads s) (getThreadKey c u)), s).
Proof. intros H. unfold getOrCreateThread. by rewrite H. Qed.

(** A miss that ends well: one thread created, one entry bound, the
    file rewritten from the new map. *)
Lemma getOrCreateThread_miss c u (s : State W) id s' :
  truthy (property (threads s) (getThreadKey c u)) = false →
  getOrCreateThread world c u s = (Returned id, s') →
  ∃ w w',
    threads_create world (outside s) = (Returned id, w) ∧
    writeFileSync world THREADS_FILE
      (JSON_stringify (<[getThreadKey c u := id]> (threads s))) w
    = (Returned tt, w') ∧
    s' = {| threads := <[getThreadKey c u := id]> (threads s);
            file := JSON_stringify (<[getThreadKey c u := id]> (threads s));
            console := console s;
            calls := (calls s ++ [ThreadsCreate]) ++
                     [WriteFileSync THREADS_FILE
                        (JSON_stringify
                           (<[getThreadKey c u := id]> (threads s)))];
            outside := w' |}.
Proof.
  intros H. unfold getOrCreateThread. rewrite H.
  unfold bind, external, assign, saveThreads, external, ret. simpl.
  destruct (threads_create world (outside s)) as [[id'|err] w] eqn:Ec;
    simpl; [|done].
  destruct (writeFileSync world THREADS_FILE _ w) as [[[]|err] w'] eqn:Ew;
    simpl; [|done].
  intros [= <- <-]. by exists w, w'.
Qed.

(** Whatever its outcome, a call does at most one [store_step]. *)
Lemma getOrCreateThread_store_step c u (s : State W) r s' :
  getOrCreateThread world c u s = (r, s') → store_step world s s'.
Proof.
  unfold getOrCreateThread.
  destruct (truthy (property (threads s) (getThreadKey c u))) eqn:H.
  - intros [= _ <-]. by left.
  - unfold bind, external, assign, saveThreads, external, ret. simpl.
    destruct (threads_create world (outside s)) as [[id|err] w] eqn:Ec;
      simpl.
    + destruct (writeFileSync world THREADS_FILE _ w) as [[[]|err] w'];
        simpl; intros [= _ <-]; right;
        exists (getThreadKey c u), id, (outside s), w; simpl; auto.
    + intros [= _ <-]. by left.
Qed.



End Store.

(** ** What a request does to the store *)

Section Frame.

Context {W : Type} (world : World W).
Variable BOT_USERNAME ASSISTANT_ID : string.

Lemma store_step_frame (s s1 s2 : State W) :
  store_step world s s1 → threads s2 = threads s1 → file s2 = file s1 →
  store_step world s s2.
Proof.
  intros [[Ht Hf]|(key & id & w & w' & Hk & Hc & Ht & Hf)] Et Ef.
  - left. split; congruence.
  - right. exists key, id, w, w'. rewrite Et, Ef. auto.
Qed.

Lemma runAssistant_store_step c u t (s : State W) r s' :
  runAssistant world ASSISTANT_ID c u t s = (r, s') → store_step world s s'.
Proof.
  unfold runAssistant, bind, external, throw, ret.
  destruct (getOrCreateThread world c u s) as [[tid|err] s1] eqn:E1;
    [|intros [= _ <-]; by eapply getOrCreateThread_store_step].
  apply getOrCreateThread_store_step in E1.
  destruct (messages_create world tid "user" t (outside s1))
    as [[[]|e2] w2]; simpl;
    [|intros [= _ <-]; by eapply store_step_frame].
  destruct (runs_createAndPoll world tid ASSISTANT_ID w2)
    as [[status|e3] w3]; simpl;
    [|intros [= _ <-]; by eapply store_step_frame].
  destruct (negb (String.eqb status "completed")); simpl;
    [intros [= _ <-]; by eapply store_step_frame|].
  destruct (messages_list world tid 5 w3) as [[data|e4] w4]; simpl;
    intros [= _ <-]; by eapply store_step_frame.
Qed.

Lemma answer_store_step c u t m (s : State W) r s' :
  answer world ASSISTANT_ID c u t m s = (r, s') → store_step world s s'.
Proof.
  unfold answer, try_catch, bind at 1.
  destruct (runAssistant world ASSISTANT_ID c u t s) as [[reply|err] s1] eqn:E1;
    apply runAssistant_store_step in E1.
  - unfold bot_sendMessage at 1, external at 1.
    destruct (sendMessage world c reply (Some (message_id m)) (outside s1))
      as [[[]|e2] w2]; simpl.
    + intros [= _ <-]. by eapply store_step_frame.
    + unfold bind, console_error, bot_sendMessage, external. simpl.
      destruct (sendMessage world c _ None w2) as [r3 w3].
      intros [= _ <-]. by eapply store_step_frame.
  - unfold bind, console_error, bot_sendMessage, external. simpl.
    destruct (sendMessage world c _ None (outside s1)) as [r3 w3].
    intros [= _ <-]. by eapply store_step_frame.
Qed.

Lemma webhook_store_step req (s : State W) :
  store_step world s (webhook world BOT_USERNAME ASSISTANT_ID req s).2.
Proof.
  unfold webhook. destruct (route BOT_USERNAME req) as [|c u t m].
  - by left.
  - unfold bind, ret.
    destruct (answer world ASSISTANT_ID c u t m s) as [[[]|err] s1] eqn:E;
      by apply answer_store_step in E.
Qed.

(** Under the backend's contract every reachable map, and every file a
    run leaves, holds truthy ids only. *)
Lemma store_step_truthy (s s' : State W) :
  issues_truthy_ids world → store_step world s s' →
  all_truthy (threads s) → all_truthy (loadThreads (file s)) →
  all_truthy (threads s') ∧ all_truthy (loadThreads (file s')).
Proof.
  intros Hw [[-> ->]|(key & id & w & w' & Hk & Hc & Ht & Hf)] Hm Hfile;
    [done|].
  assert (all_truthy (threads s')) as Hm'.
  { rewrite Ht. intros k v. rewrite lookup_insert.
    case_decide; [intros [= <-]; by eapply Hw|apply Hm]. }
  split; [done|]. destruct Hf as [->| ->]; [done|].
  intros k v [E _]%map_lookup_filter_Some. by eapply Hm'.
Qed.

Lemma reachable_truthy (s : State W) :
  issues_truthy_ids world →
  Reachable world BOT_USERNAME ASSISTANT_ID s →
  all_truthy (threads s) ∧ all_truthy (loadThreads (file s)).
Proof.
  intros Hw. induction 1 as [f w E|s req _ [IH1 IH2]|s w _ [IH1 IH2]].
  - simpl. assert (all_truthy (loadThreads f)) by (rewrite E; by intros k v).
    done.
  - eapply store_step_truthy; eauto using webhook_store_step.
  - done.
Qed.

End Frame.

(** * The claims *)

Section StoreClaims.

Context {W : Type} (world : World W).
Variable BOT_USERNAME ASSISTANT_ID : string.


Lemma run_reachable (s s' : State W) :
  Reachable world BOT_USERNAME ASSISTANT_ID s →
  Run world BOT_USERNAME ASSISTANT_ID s s' →
  Reachable world BOT_USERNAME ASSISTANT_ID s'.
Proof. intros Hs. induction 1; [done|by constructor]. Qed.

(** One request from a state whose ids are all truthy: every entry
    stays as it is, and the map is left alone or gains one new key. *)
Lemma webhook_keeps_entries (s : State W) req :
  all_truthy (threads s) →
  let s' := (webhook world BOT_USERNAME ASSISTANT_ID req s).2 in
  (∀ k v, threads s !! k = Some v → threads s' !! k = Some v) ∧
  (threads s' = threads s ∨
   ∃ k v, threads s !! k = None ∧ threads s' = <[k := v]> (threads s)).
Proof.
  intros Hm s'.
  destruct (webhook_store_step world BOT_USERNAME ASSISTANT_ID req s)
    as [[Ht _]|(key & id & w & w' & Hk & _ & Ht & _)]; fold s' in Ht.
  - rewrite Ht. auto.
  - apply (falsy_is_absent _ _ Hm) in Hk. split.
    + intros k v E. rewrite Ht, lookup_insert_ne; [done|congruence].
    + right. by exists key, id.
Qed.

(** C9.  With a backend that issues truthy (non-empty) context ids, in
    every reachable state and for every delivery handled there: each
    existing entry keeps its value and none is deleted; the map is left
    as it is or gains a binding for a key that had none.  Hence, along
    a run of the process, a key that holds an id holds that same id
    ever after: one context id per (chat, user) pair. *)
Theorem thread_entries_are_permanent (s : State W) :
  issues_truthy_ids world →
  Reachable world BOT_USERNAME ASSISTANT_ID s →
  (∀ req,
     let s' := (webhook world BOT_USERNAME ASSISTANT_ID req s).2 in
     (∀ k v, threads s !! k = Some v → threads s' !! k = Some v) ∧
     (threads s' = threads s ∨
      ∃ k v, threads s !! k = None ∧ threads s' = <[k := v]> (threads s))) ∧
  (∀ s', Run world BOT_USERNAME ASSISTANT_ID s s' →
     ∀ k v, threads s !! k = Some v → threads s' !! k = Some v).
Proof.
  intros Hw Hs. split.
  - intros req. apply webhook_keeps_entries.
    by destruct (reachable_truthy world _ _ s Hw Hs).
  - induction 1 as [|s' req Hrun IH]; [done|].
    intros k v E. apply IH in E.
    pose proof (run_reachable _ _ Hs Hrun) as Hs'.
    destruct (reachable_truthy world _ _ s' Hw Hs') as [Hm _].
    by apply (webhook_keeps_entries s' req Hm).
Qed.

End StoreClaims.

Section DispatcherClaims.

Context {W : Type} (world : World W).
Variable BOT_USERNAME ASSISTANT_ID : string.

Import JsString.

Lemma tag_starts_solid : starts_solid (mentionTag BOT_USERNAME) = true.
Proof. done. Qed.


(** [route] on a text message, case by case. *)
Lemma route_private m raw :
  text m = Some raw → raw ≠ "" → chat_type (chat m) = VStr "private" →
  route BOT_USERNAME (delivery m)
  = Forward (chat_id (chat m)) (default VUndefined (user_id <$> from m))
            (trim raw) m.
Proof.
  intros Ht Hraw Hp. unfold route, delivery. simpl. rewrite Ht.
  apply String.eqb_neq in Hraw. rewrite Hraw.
  rewrite bool_decide_eq_true_2; done.
Qed.

Lemma route_group m raw :
  text m = Some raw → raw ≠ "" → chat_type (chat m) ≠ VStr "private" →
  route BOT_USERNAME (delivery m)
  = if includes (trim raw) (mentionTag BOT_USERNAME)
    then Forward (chat_id (chat m)) (default VUndefined (user_id <$> from m))
                 (trim (replace (trim raw) (mentionTag BOT_USERNAME) "")) m
    else Ignore.
Proof.
  intros Ht Hraw Hp. unfold route, delivery. simpl. rewrite Ht.
  apply String.eqb_neq in Hraw. rewrite Hraw.
  rewrite bool_decide_eq_false_2; [|done]. simpl.
  by destruct (includes (trim raw) (mentionTag BOT_USERNAME)).
Qed.




(** C6.  In a chat that is not private, a text without the mention tag
    is acknowledged and nothing else happens: the state after is the
    state before, so no call was made (no message to the chat, no call
    to the backend, no write) and the map and the file are as they were. *)
Theorem unmentioned_is_ignored m raw (s : State W) :
  text m = Some raw →
  chat_type (chat m) ≠ VStr "private" →
  includes raw (mentionTag BOT_USERNAME) = false →
  webhook world BOT_USERNAME ASSISTANT_ID (delivery m) s
  = (Returned (sendStatus 200), s).
Proof.
  intros Ht Hp Hin. unfold webhook.
  destruct (decide (raw = "")) as [->|Hraw].
  - unfold route, delivery. simpl. by rewrite Ht.
  - rewrite (route_group m raw Ht Hraw Hp).
    destruct (includes (trim raw) (mentionTag BOT_USERNAME)) eqn:E; [|done].
    apply includes_trim_weak in E. congruence.
Qed.


End DispatcherClaims.

(** ** Replies and acknowledgments *)

Section Replies.

Context {W : Type} (world : World W).
Variable BOT_USERNAME ASSISTANT_ID : string.

Lemma chat_sends_snoc cs c :
  chat_sends (cs ++ [c])
  = (chat_sends cs ++
     match c with
     | SendMessage chatId text reply_to => [(chatId, text, reply_to)]
     | _ => []
     end)%list.
Proof. unfold chat_sends. rewrite omap_app. by destruct c. Qed.

(** Resolving the thread and asking the assistant hand nothing to the
    chat transport. *)
Lemma getOrCreateThread_no_sends c u (s : State W) r s' :
  getOrCreateThread world c u s = (r, s') →
  chat_sends (calls s') = chat_sends (calls s) ∧ console s' = console s.
Proof.
  unfold getOrCreateThread.
  destruct (truthy (property (threads s) (getThreadKey c u))).
  - by intros [= _ <-].
  - unfold bind, external, assign, saveThreads, external, ret. simpl.
    destruct (threads_create world (outside s)) as [[id|err] w]; simpl.
    + destruct (writeFileSync world THREADS_FILE _ w) as [[[]|err] w'];
        simpl; intros [= _ <-]; simpl;
        by rewrite !chat_sends_snoc, !app_nil_r.
    + intros [= _ <-]. simpl. by rewrite chat_sends_snoc, app_nil_r.
Qed.

Lemma runAssistant_no_sends c u t (s : State W) r s' :
  runAssistant world ASSISTANT_ID c u t s = (r, s') →
  chat_sends (calls s') = chat_sends (calls s) ∧ console s' = console s.
Proof.
  unfold runAssistant, bind, external, throw, ret.
  destruct (getOrCreateThread world c u s) as [[tid|err] s1] eqn:E1;
    apply getOrCreateThread_no_sends in E1 as [E1 E1'];
    [|by intros [= _ <-]].
  destruct (messages_create world tid "user" t (outside s1))
    as [[[]|e2] w2]; simpl;
    [|intros [= _ <-]; simpl; by rewrite chat_sends_snoc, app_nil_r].
  destruct (runs_createAndPoll world tid ASSISTANT_ID w2)
    as [[status|e3] w3]; simpl;
    [|intros [= _ <-]; simpl; by rewrite !chat_sends_snoc, !app_nil_r].
  destruct (negb (String.eqb status "completed")); simpl;
    [intros [= _ <-]; simpl; by rewrite !chat_sends_snoc, !app_nil_r|].
  destruct (messages_list world tid 5 w3) as [[data|e4] w4]; simpl;
    intros [= _ <-]; simpl; by rewrite !chat_sends_snoc, !app_nil_r.
Qed.

(** When [runAssistant] throws, what is left of the handler is the
    [catch] block: a line on the console, then the fallback message. *)
Lemma answer_catch c u t m (s : State W) err s1 :
  runAssistant world ASSISTANT_ID c u t s = (Thrown err, s1) →
  answer world ASSISTANT_ID c u t m s
  = bot_sendMessage world c "Error processing your request." None
      {| threads := threads s1; file := file s1;
         console := console s1 ++ ["Assistant error: " +:+ err];
         calls := calls s1; outside := outside s1 |}.
Proof.
  intros E. unfold answer, try_catch, bind at 1. rewrite E.
  by unfold bind, console_error.
Qed.

(** The claim of C2 where the fallback message goes through: it is
    the one message the chat is sent, and the delivery is acknowledged. *)
Lemma fallback_reply_when_assistant_fails req c u t m (s : State W) err s1 w :
  route BOT_USERNAME req = Forward c u t m →
  runAssistant world ASSISTANT_ID c u t s = (Thrown err, s1) →
  sendMessage world c "Error processing your request." None (outside s1)
  = (Returned tt, w) →
  ∃ s', webhook world BOT_USERNAME ASSISTANT_ID req s
        = (Returned (sendStatus 200), s') ∧
        chat_sends (calls s')
        = (chat_sends (calls s) ++
           [(c, "Error processing your request.", None)])%list ∧
        console s' = (console s ++ ["Assistant error: " +:+ err])%list.
Proof.
  intros Er Ea Es. unfold webhook. rewrite Er. unfold bind at 1.
  rewrite (answer_catch _ _ _ _ _ _ _ Ea).
  unfold bot_sendMessage, external, ret. simpl. rewrite Es.
  eexists. split; [done|]. cbn [calls console].
  rewrite chat_sends_snoc.
  by destruct (runAssistant_no_sends _ _ _ _ _ _ Ea) as [-> ->].
Qed.

(** The same, where the fallback message is turned down: the error
    leaves the handler and no response is sent. *)
Lemma no_response_when_fallback_fails req c u t m (s : State W) err s1 e w :
  route BOT_USERNAME req = Forward c u t m →
  runAssistant world ASSISTANT_ID c u t s = (Thrown err, s1) →
  sendMessage world c "Error processing your request." None (outside s1)
  = (Thrown e, w) →
  ∃ s', webhook world BOT_USERNAME ASSISTANT_ID req s = (Thrown e, s').
Proof.
  intros Er Ea Es. unfold webhook. rewrite Er. unfold bind at 1.
  rewrite (answer_catch _ _ _ _ _ _ _ Ea).
  unfold bot_sendMessage, external, ret. simpl. rewrite Es. by eexists.
Qed.



(** What the backend is handed: once the thread is resolved, the next
    call appends the forwarded text to it as a user message. *)
Lemma forwarded_text_reaches_backend c u t (s : State W) tid s1 :
  getOrCreateThread world c u s = (Returned tid, s1) →
  ∃ rest, calls (runAssistant world ASSISTANT_ID c u t s).2
          = (calls s1 ++ MessagesCreate tid "user" t :: rest)%list.
Proof.
  intros E. unfold runAssistant, bind at 1. rewrite E.
  unfold bind, external, throw, ret.
  destruct (messages_create world tid "user" t (outside s1))
    as [[[]|e2] w2]; simpl; [|by exists []].
  destruct (runs_createAndPoll world tid ASSISTANT_ID w2)
    as [[status|e3] w3]; simpl;
    [|eexists; by rewrite <- app_assoc].
  destruct (negb (String.eqb status "completed")); simpl;
    [eexists; by rewrite <- app_assoc|].
  destruct (messages_list world tid 5 w3) as [[data|e4] w4]; simpl;
    eexists; by rewrite <- !app_assoc.
Qed.

End Replies.

(** ** The assistant's reply *)

Section Assistant.

Context {W : Type} (world : World W).
Variable ASSISTANT_ID : string.

Lemma reply_text_nonempty data : reply_text data ≠ "".
Proof.
  unfold reply_text. destruct (find_assistant data ≫= primary_text) as [v|];
    [|done].
  destruct (String.eqb v "") eqn:E; [done|]. by apply String.eqb_neq.
Qed.

(** [find] stops at the first assistant-authored message of the list. *)
Lemma find_assistant_none data :
  (∀ x, x ∈ data → role x ≠ "assistant") → find_assistant data = None.
Proof.
  unfold find_assistant. induction data as [|x data IH]; intros H; [done|].
  simpl. destruct (String.eqb (role x) "assistant") eqn:E.
  - apply String.eqb_eq in E. destruct (H x); [left|done].
  - apply IH. intros y Hy. apply H. by right.
Qed.

Lemma find_assistant_first l1 m l2 :
  (∀ x, x ∈ l1 → role x ≠ "assistant") → role m = "assistant" →
  find_assistant (l1 ++ m :: l2) = Some m.
Proof.
  unfold find_assistant. intros H Hm. induction l1 as [|x l1 IH]; simpl.
  - by rewrite Hm.
  - destruct (String.eqb (role x) "assistant") eqn:E.
    + apply String.eqb_eq in E. destruct (H x); [left|done].
    + apply IH. intros y Hy. apply H. by right.
Qed.

(** Every step before the return went well: the value returned. *)
Lemma runAssistant_returns c u t (s : State W) tid s1 w2 w3 data w4 :
  getOrCreateThread world c u s = (Returned tid, s1) →
  messages_create world tid "user" t (outside s1) = (Returned tt, w2) →
  runs_createAndPoll world tid ASSISTANT_ID w2 = (Returned "completed", w3) →
  messages_list world tid 5 w3 = (Returned data, w4) →
  ∃ s', runAssistant world ASSISTANT_ID c u t s
        = (Returned (reply_text data), s').
Proof.
  intros E1 E2 E3 E4. unfold runAssistant, bind at 1. rewrite E1.
  unfold bind, external, throw, ret. simpl. rewrite E2. simpl.
  rewrite E3. simpl. rewrite E4. by eexists.
Qed.

(** C7, as the code has it.  Once the recent messages are fetched,
    [runAssistant] returns, and what it returns is never empty.  It is
    "No response generated." when the list has no assistant-authored
    entry, and also when the first assistant-authored entry of the list
    (the backend lists the newest first) has no text in its first part
    or an empty one; otherwise it is that text. *)
Theorem assistant_reply_is_never_empty
    c u t (s : State W) tid s1 w2 w3 data w4 :
  getOrCreateThread world c u s = (Returned tid, s1) →
  messages_create world tid "user" t (outside s1) = (Returned tt, w2) →
  runs_createAndPoll world tid ASSISTANT_ID w2 = (Returned "completed", w3) →
  messages_list world tid 5 w3 = (Returned data, w4) →
  (∃ s', runAssistant world ASSISTANT_ID c u t s
         = (Returned (reply_text data), s')) ∧
  reply_text data ≠ "" ∧
  ((∀ x, x ∈ data → role x ≠ "assistant") →
     reply_text data = "No response generated.") ∧
  (∀ l1 m l2,
     data = (l1 ++ m :: l2)%list →
     (∀ x, x ∈ l1 → role x ≠ "assistant") → role m = "assistant" →
     (primary_text m = None ∨ primary_text m = Some "" →
        reply_text data = "No response generated.") ∧
     (∀ v, primary_text m = Some v → v ≠ "" → reply_text data = v)).
Proof.
  intros E1 E2 E3 E4.
  split; [by eapply runAssistant_returns|].
  split; [apply reply_text_nonempty|]. split.
  - intros H. unfold reply_text. by rewrite (find_assistant_none _ H).
  - intros l1 m l2 -> H Hm. unfold reply_text.
    rewrite (find_assistant_first _ _ _ H Hm). simpl. split.
    + by intros [-> | ->].
    + intros v -> Hv. apply String.eqb_neq in Hv. by rewrite Hv.
Qed.

End Assistant.

(** * The claims on concrete deliveries *)

(** C8.  Over the ids of the chat platform (integers a double holds
    exactly), two pairs have the same key exactly when they are the same
    pair: distinct pairs never share a key, and a pair always gives the
    same key. *)
Theorem getThreadKey_injective c u c' u' :
  reasonable_id c = true → reasonable_id u = true →
  reasonable_id c' = true → reasonable_id u' = true →
  getThreadKey c u = getThreadKey c' u' ↔ (c, u) = (c', u').
Proof.
  intros Hc Hu Hc' Hu'. split.
  - intros E.
    destruct (getThreadKey_inj c u c' u') as [-> ->];
      auto using reasonable_not_string.
  - by intros [= -> ->].
Qed.

Lemma getThreadKey_injective_witness :
  getThreadKey (VNum 12) (VNum 3) ≠ getThreadKey (VNum 1) (VNum 23).
Proof.
  intros E.
  apply (getThreadKey_injective (VNum 12) (VNum 3) (VNum 1) (VNum 23)
           eq_refl eq_refl eq_refl eq_refl) in E.
  discriminate E.
Defined.

(** Outside that range the key is not injective: ids that are strings
    may carry the colon themselves. *)
Example getThreadKey_collides_on_strings :
  getThreadKey (VStr "1:2") (VStr "3") = getThreadKey (VStr "1") (VStr "2:3").
Proof. reflexivity. Qed.

Lemma calm_issues_truthy_ids v : issues_truthy_ids (calm v).
Proof. intros w id w' [= <- _]. reflexivity. Qed.



Lemma thread_entries_are_permanent_witness :
  let s := (webhook (calm "Sure.") "ScopeShield_Bot" "asst_1"
              (delivery (text_message "private" 5 (Some 9) "hi"))
              (boot Absent 0%Z)).2 in
  let s' := (webhook (calm "Sure.") "ScopeShield_Bot" "asst_1"
               (delivery (text_message "private" 6 (Some 10) "hello"))
               s).2 in
  threads s' !! "5:9" = Some (VStr "thread_0") ∧
  (threads s' = threads s ∨
   ∃ k v, threads s !! k = None ∧ threads s' = <[k := v]> (threads s)).
Proof.
  intros s s'.
  assert (Reachable (calm "Sure.") "ScopeShield_Bot" "asst_1" s) as Hs.
  { apply reach_webhook, reach_boot. reflexivity. }
  destruct (proj1 (thread_entries_are_permanent (calm "Sure.")
                     "ScopeShield_Bot" "asst_1" s
                     (calm_issues_truthy_ids "Sure.") Hs)
              (delivery (text_message "private" 6 (Some 10) "hello")))
    as [H1 H2].
  split; [apply H1; reflexivity|exact H2].
Defined.

(** C2 on a delivery the code does not get through: the run ends as
    "failed", so [runAssistant] throws; the fallback message is handed to
    the chat transport, which throws it back; the error leaves the
    handler and no response is ever sent. *)
Theorem fallback_failure_leaves_delivery_unacknowledged :
  let r := webhook transport_down "ScopeShield_Bot" "asst_1"
             (delivery (text_message "private" 5 (Some 9) "hi"))
             (boot Absent 0%Z) in
  r.1 = Thrown "ETELEGRAM: 403 Forbidden" ∧
  chat_sends (calls r.2)
  = [(VNum 5, "Error processing your request.", None)] ∧
  console r.2 = ["Assistant error: Assistant run failed with status: failed"].
Proof. by vm_compute. Qed.





Lemma unmentioned_is_ignored_witness :
  webhook (calm "Sure.") "ScopeShield_Bot" "asst_1"
    (delivery (text_message "supergroup" 5 (Some 9) "lunch at noon?"))
    (boot Absent 0%Z)
  = (Returned (sendStatus 200), boot Absent 0%Z).
Proof.
  refine (unmentioned_is_ignored (calm "Sure.") "ScopeShield_Bot" "asst_1"
            (text_message "supergroup" 5 (Some 9) "lunch at noon?")
            "lunch at noon?" (boot Absent 0%Z) eq_refl _ eq_refl).
  discriminate.
Defined.


(** C7 fails as stated: the fallback text is returned although the list
    has an assistant-authored entry, when the first part of that entry is
    not text. *)
Lemma fallback_despite_assistant_message :
  reply_text [image_then_text] = "No response generated." ∧
  image_then_text ∈ [image_then_text] ∧ role image_then_text = "assistant".
Proof. split; [reflexivity|]. split; [by left|reflexivity]. Qed.

Lemma assistant_reply_is_never_empty_witness :
  ∃ s', runAssistant (calm "Sure.") "asst_1" (VNum 5) (VNum 9) "hi"
          (boot Absent 0%Z)
        = (Returned "Sure.", s').
Proof.
  exact (proj1 (assistant_reply_is_never_empty (calm "Sure.") "asst_1"
                  (VNum 5) (VNum 9) "hi" (boot Absent 0%Z) (VStr "thread_0")
                  (getOrCreateThread (calm "Sure.") (VNum 5) (VNum 9)
                     (boot Absent 0%Z)).2
                  1%Z 1%Z [assistant_says "Sure."] 1%Z
                  eq_refl eq_refl eq_refl eq_refl)).
Defined.

(** * Further properties of the code *)

(** ** The thread store and its file *)

Section StoreExtras.

Context {W : Type} (world : World W).
Variable BOT_USERNAME ASSISTANT_ID : string.




(** What a call leaves in the map: the map as it was, or the map with
    the call's own key bound anew. *)
Lemma getOrCreateThread_threads c u (s : State W) r s' :
  getOrCreateThread world c u s = (r, s') →
  threads s' = threads s ∨
  ∃ id, threads s' = <[getThreadKey c u := id]> (threads s).
Proof.
  unfold getOrCreateThread.
  destruct (truthy (property (threads s) (getThreadKey c u))).
  - intros [= _ <-]. by left.
  - unfold bind, external, assign, saveThreads, external, ret. simpl.
    destruct (threads_create world (outside s)) as [[id|err] w]; simpl.
    + destruct (writeFileSync world THREADS_FILE _ w) as [[[]|err] w'];
        simpl; intros [= _ <-]; right; by exists id.
    + intros [= _ <-]. by left.
Qed.


(** A request touches the map and the file through its one call of
    [getOrCreateThread], if at all. *)
Lemma runAssistant_thread c u t (s : State W) r s' :
  runAssistant world ASSISTANT_ID c u t s = (r, s') →
  ∃ r1 s1, getOrCreateThread world c u s = (r1, s1) ∧
           threads s' = threads s1 ∧ file s' = file s1.
Proof.
  unfold runAssistant, bind, external, throw, ret.
  destruct (getOrCreateThread world c u s) as [[tid|err] s1] eqn:E1;
    [|intros [= _ <-]; by eexists _, _].
  destruct (messages_create world tid "user" t (outside s1))
    as [[[]|e2] w2]; simpl; [|intros [= _ <-]; by eexists _, _].
  destruct (runs_createAndPoll world tid ASSISTANT_ID w2)
    as [[status|e3] w3]; simpl; [|intros [= _ <-]; by eexists _, _].
  destruct (negb (String.eqb status "completed")); simpl;
    [intros [= _ <-]; by eexists _, _|].
  destruct (messages_list world tid 5 w3) as [[data|e4] w4]; simpl;
    intros [= _ <-]; by eexists _, _.
Qed.

Lemma answer_thread c u t m (s : State W) r s' :
  answer world ASSISTANT_ID c u t m s = (r, s') →
  ∃ r1 s1, getOrCreateThread world c u s = (r1, s1) ∧
           threads s' = threads s1 ∧ file s' = file s1.
Proof.
  unfold answer, try_catch, bind at 1.
  destruct (runAssistant world ASSISTANT_ID c u t s) as [[reply|err] s1] eqn:E1;
    apply runAssistant_thread in E1 as (r0 & s0 & E0 & Et & Ef).
  - unfold bot_sendMessage at 1, external at 1.
    destruct (sendMessage world c reply (Some (message_id m)) (outside s1))
      as [[[]|e2] w2]; simpl.
    + intros [= _ <-]. by exists r0, s0.
    + unfold bind, console_error, bot_sendMessage, external. simpl.
      destruct (sendMessage world c _ None w2) as [r3 w3].
      intros [= _ <-]. by exists r0, s0.
  - unfold bind, console_error, bot_sendMessage, external. simpl.
    destruct (sendMessage world c _ None (outside s1)) as [r3 w3].
    intros [= _ <-]. by exists r0, s0.
Qed.

Lemma webhook_thread req (s : State W) :
  let s' := (webhook world BOT_USERNAME ASSISTANT_ID req s).2 in
  (threads s' = threads s ∧ file s' = file s) ∨
  ∃ c u r1 s1, getOrCreateThread world c u s = (r1, s1) ∧
               threads s' = threads s1 ∧ file s' = file s1.
Proof.
  unfold webhook. destruct (route BOT_USERNAME req) as [|c u t m].
  - by left.
  - right. unfold bind, ret.
    destruct (answer world ASSISTANT_ID c u t m s) as [[[]|err] s1] eqn:E;
      apply answer_thread in E as (r0 & s0 & E0 & Et & Ef);
      by exists c, u, r0, s0.
Qed.




(** X4.  Whatever the backend and the file system do, no key ever
    leaves the map along a run of the process. *)
Theorem keys_are_never_removed (s s' : State W) :
  Run world BOT_USERNAME ASSISTANT_ID s s' →
  dom (threads s) ⊆ dom (threads s').
Proof.
  induction 1 as [|s' req _ IH]; [done|].
  etrans; [exact IH|].
  destruct (webhook_thread req s')
    as [[-> _]|(c & u & r1 & s1 & E1 & -> & _)]; [done|].
  destruct (getOrCreateThread_threads _ _ _ _ _ E1) as [-> |[id ->]];
    [done|apply dom_insert_subseteq].
Qed.

(** X5.  An entry whose value does not pass [if (threads[key])] (an
    empty string, [null], [0], [false]) counts as missing: the next call
    for its pair creates a thread and puts the new id in its place. *)
Theorem falsy_entry_is_replaced c u (s : State W) v id s' :
  threads s !! getThreadKey c u = Some v → truthy v = false →
  getOrCreateThread world c u s = (Returned id, s') →
  threads s' !! getThreadKey c u = Some id ∧
  size (threads s') = size (threads s) ∧
  store_calls (calls s')
  = (store_calls (calls s) ++
     [ThreadsCreate; WriteFileSync THREADS_FILE (file s')])%list.
Proof.
  intros Ek Hv E.
  assert (truthy (property (threads s) (getThreadKey c u)) = false) as H
    by (unfold property; by rewrite Ek).
  destruct (getOrCreateThread_miss world _ _ _ _ _ H E) as (w & w' & _ & _ & ->).
  simpl. split; [by rewrite lookup_insert_eq|].
  split; [by apply map_size_insert_Some|].
  unfold store_calls. by rewrite <- app_assoc, omap_app.
Qed.

(** X6.  Over the ids of the chat platform, a call for one pair leaves
    the entry of every other pair as it was. *)
Theorem other_pairs_are_untouched c u c' u' (s : State W) r s' :
  reasonable_id c = true → reasonable_id u = true →
  reasonable_id c' = true → reasonable_id u' = true →
  (c, u) ≠ (c', u') →
  getOrCreateThread world c u s = (r, s') →
  threads s' !! getThreadKey c' u' = threads s !! getThreadKey c' u'.
Proof.
  intros Hc Hu Hc' Hu' Hne E.
  destruct (getOrCreateThread_threads _ _ _ _ _ E) as [-> |[id ->]]; [done|].
  apply lookup_insert_ne. intros Ek. apply Hne.
  destruct (getThreadKey_inj c u c' u') as [-> ->];
    auto using reasonable_not_string.
Qed.

End StoreExtras.

(** ** The assistant interaction *)

Section AssistantExtras.

Context {W : Type} (world : World W).
Variable ASSISTANT_ID : string.

(** X7.  A run that ends in any status but "completed" makes
    [runAssistant] throw, with the status in the message, straight after
    the run: the messages of the thread are not fetched. *)
Theorem unfinished_run_is_an_error c u t (s : State W) tid s1 w2 status w3 :
  getOrCreateThread world c u s = (Returned tid, s1) →
  messages_create world tid "user" t (outside s1) = (Returned tt, w2) →
  runs_createAndPoll world tid ASSISTANT_ID w2 = (Returned status, w3) →
  status ≠ "completed" →
  runAssistant world ASSISTANT_ID c u t s
  = (Thrown ("Assistant run failed with status: " +:+ status),
     {| threads := threads s1; file := file s1; console := console s1;
        calls := (calls s1 ++ [MessagesCreate tid "user" t]) ++
                 [RunsCreateAndPoll tid ASSISTANT_ID];
        outside := w3 |}).
Proof.
  intros E1 E2 E3 Hs. unfold runAssistant, bind at 1. rewrite E1.
  unfold bind, external, throw, ret. simpl. rewrite E2. simpl.
  rewrite E3. simpl. apply String.eqb_neq in Hs. by rewrite Hs.
Qed.

(** X8.  When every step goes well, [runAssistant] talks to the backend
    in this order and no more: the user's text is appended to the
    thread, the run is made with the configured assistant, the last five
    messages are fetched; the store is left as thread resolution left it. *)
Theorem assistant_is_asked_in_three_calls
    c u t (s : State W) tid s1 w2 w3 data w4 :
  getOrCreateThread world c u s = (Returned tid, s1) →
  messages_create world tid "user" t (outside s1) = (Returned tt, w2) →
  runs_createAndPoll world tid ASSISTANT_ID w2 = (Returned "completed", w3) →
  messages_list world tid 5 w3 = (Returned data, w4) →
  runAssistant world ASSISTANT_ID c u t s
  = (Returned (reply_text data),
     {| threads := threads s1; file := file s1; console := console s1;
        calls := ((calls s1 ++ [MessagesCreate tid "user" t]) ++
                  [RunsCreateAndPoll tid ASSISTANT_ID]) ++
                 [MessagesList tid 5];
        outside := w4 |}).
Proof.
  intros E1 E2 E3 E4. unfold runAssistant, bind at 1. rewrite E1.
  unfold bind, external, throw, ret. simpl. rewrite E2. simpl.
  rewrite E3. simpl. by rewrite E4.
Qed.

(** X9.  The reply is read off the first assistant-authored message of
    the list and off nothing else: the messages after it play no part,
    so an older answer is never used in place of a newest one that has
    no text. *)
Theorem reply_comes_from_first_assistant_message l1 m l2 :
  (∀ x, x ∈ l1 → role x ≠ "assistant") → role m = "assistant" →
  reply_text (l1 ++ m :: l2) = reply_text [m].
Proof.
  intros H Hm. unfold reply_text.
  rewrite (find_assistant_first _ _ _ H Hm).
  assert (find_assistant [m] = Some m) as ->; [|done].
  apply (find_assistant_first [] m []); [|done].
  intros x Hx. by apply not_elem_of_nil in Hx.
Qed.

End AssistantExtras.

(** ** The webhook endpoint *)

Section WebhookExtras.

Context {W : Type} (world : World W).
Variable BOT_USERNAME ASSISTANT_ID : string.

Import JsString.
Local Arguments chat_sends : simpl never.
Local Arguments store_calls : simpl never.

Lemma webhook_state_forward req c u t m (s : State W) :
  route BOT_USERNAME req = Forward c u t m →
  (webhook world BOT_USERNAME ASSISTANT_ID req s).2
  = (answer world ASSISTANT_ID c u t m s).2.
Proof.
  intros E. unfold webhook. rewrite E. unfold bind, ret.
  by destruct (answer world ASSISTANT_ID c u t m s) as [[[]|err] s1].
Qed.

(** The calls of the [try] block and its [catch]: thread resolution
    first, then calls that neither create a thread nor write the file,
    the first of them the one that appends the text to the thread. *)
Lemma answer_calls c u t m (s : State W) :
  ∃ r1 s1 rest,
    getOrCreateThread world c u s = (r1, s1) ∧
    calls (answer world ASSISTANT_ID c u t m s).2 = (calls s1 ++ rest)%list ∧
    store_calls rest = [] ∧
    (chat_sends rest = [(c, "Error processing your request.", None)] ∨
     ∃ reply,
       chat_sends rest = [(c, reply, Some (message_id m))] ∨
       chat_sends rest = [(c, reply, Some (message_id m));
                          (c, "Error processing your request.", None)]) ∧
    (∀ tid, r1 = Returned tid →
            ∃ rest', rest = MessagesCreate tid "user" t :: rest').
Proof.
  unfold answer, try_catch, runAssistant, bind, bot_sendMessage,
    console_error, external, throw, ret.
  destruct (getOrCreateThread world c u s) as [[tid|err] s1] eqn:E1;
    [exists (Returned tid), s1|exists (Thrown err), s1]; simpl;
    repeat match goal with
      | |- context [messages_create world ?a ?b ?c ?w] =>
          destruct (messages_create world a b c w) as [[[]|?] ?]; simpl
      | |- context [runs_createAndPoll world ?a ?b ?w] =>
          destruct (runs_createAndPoll world a b w) as [[?|?] ?]; simpl
      | |- context [messages_list world ?a ?b ?w] =>
          destruct (messages_list world a b w) as [[?|?] ?]; simpl
      | |- context [sendMessage world ?a ?b ?c ?w] =>
          destruct (sendMessage world a b c w) as [[[]|?] ?]; simpl
      | |- context [if negb ?b then _ else _] => destruct b; simpl
      end;
    eexists; rewrite <- ?app_assoc;
    (split; [done|]); (split; [reflexivity|]); (split; [reflexivity|]);
    (split;
     [first [left; reflexivity
            |right; eexists; left; reflexivity
            |right; eexists; right; reflexivity]|]);
    try done; intros ? [= <-]; eexists; reflexivity.
Qed.

(** X10.  A delivery without a message, or whose message has no text
    or an empty one, is acknowledged and nothing else is done: the state
    is left as it was. *)
Theorem delivery_without_text_is_only_acknowledged req (s : State W) :
  (body_message req = None ∨
   ∃ m, body_message req = Some m ∧ (text m = None ∨ text m = Some "")) →
  webhook world BOT_USERNAME ASSISTANT_ID req s = (Returned (sendStatus 200), s).
Proof.
  unfold webhook, route.
  intros [-> |(m & -> & [-> | ->])]; done.
Qed.

(** X11.  When the assistant answers and the chat transport takes the
    answer, the chat is sent one message: the reply, as a reply to the
    message that asked; nothing is written to the console and the
    delivery is acknowledged. *)
Theorem reply_is_sent_as_a_reply req c u t m (s : State W) reply s1 w :
  route BOT_USERNAME req = Forward c u t m →
  runAssistant world ASSISTANT_ID c u t s = (Returned reply, s1) →
  sendMessage world c reply (Some (message_id m)) (outside s1)
  = (Returned tt, w) →
  ∃ s', webhook world BOT_USERNAME ASSISTANT_ID req s
        = (Returned (sendStatus 200), s') ∧
        chat_sends (calls s')
        = (chat_sends (calls s) ++ [(c, reply, Some (message_id m))])%list ∧
        console s' = console s ∧
        threads s' = threads s1 ∧ file s' = file s1.
Proof.
  intros Er Ea Es. unfold webhook. rewrite Er.
  unfold bind at 1, answer, try_catch, bind at 1. rewrite Ea.
  unfold bot_sendMessage, external, ret. simpl. rewrite Es.
  eexists. split; [done|]. cbn [calls console threads file].
  rewrite chat_sends_snoc.
  by destruct (runAssistant_no_sends _ _ _ _ _ _ _ _ Ea) as [-> ->].
Qed.

(** X12.  The [try] block covers the sending of the reply too: when the
    chat transport throws the reply back, the error is logged and the
    fallback message is sent, this time not as a reply; if that one goes
    through, the delivery is acknowledged. *)
Theorem refused_reply_falls_back req c u t m (s : State W) reply s1 e w w' :
  route BOT_USERNAME req = Forward c u t m →
  runAssistant world ASSISTANT_ID c u t s = (Returned reply, s1) →
  sendMessage world c reply (Some (message_id m)) (outside s1)
  = (Thrown e, w) →
  sendMessage world c "Error processing your request." None w
  = (Returned tt, w') →
  ∃ s', webhook world BOT_USERNAME ASSISTANT_ID req s
        = (Returned (sendStatus 200), s') ∧
        chat_sends (calls s')
        = (chat_sends (calls s) ++
           [(c, reply, Some (message_id m));
            (c, "Error processing your request.", None)])%list ∧
        console s' = (console s ++ ["Assistant error: " +:+ e])%list.
Proof.
  intros Er Ea Es Ef. unfold webhook. rewrite Er.
  unfold bind at 1, answer, try_catch, bind at 1. rewrite Ea.
  unfold bot_sendMessage at 1, external at 1. rewrite Es. simpl.
  unfold bind, console_error, bot_sendMessage, external, ret. simpl.
  rewrite Ef. eexists. split; [done|]. cbn [calls console].
  rewrite !chat_sends_snoc, <- app_assoc.
  by destruct (runAssistant_no_sends _ _ _ _ _ _ _ _ Ea) as [-> ->].
Qed.

(** X13.  Whatever happens, one delivery makes the handler send at
    most two messages, each to the chat the delivery came from: a reply
    to the message that asked, then, or instead, the fallback message. *)
Theorem sends_stay_in_the_chat req (s : State W) :
  ∃ l, chat_sends (calls (webhook world BOT_USERNAME ASSISTANT_ID req s).2)
       = (chat_sends (calls s) ++ l)%list ∧
       (length l ≤ 2)%nat ∧
       ∀ chatId txt reply_to, (chatId, txt, reply_to) ∈ l →
         ∃ u t m, route BOT_USERNAME req = Forward chatId u t m ∧
                  (reply_to = Some (message_id m) ∨
                   (txt = "Error processing your request." ∧
                    reply_to = None)).
Proof.
  destruct (route BOT_USERNAME req) as [|c u t m] eqn:Er.
  { exists []. unfold webhook. rewrite Er. simpl. rewrite app_nil_r.
    split; [done|]. split; [lia|]. by intros ??? ?%not_elem_of_nil. }
  rewrite (webhook_state_forward _ _ _ _ _ _ Er).
  destruct (answer_calls c u t m s)
    as (r1 & s1 & rest & E1 & -> & _ & Hsends & _).
  apply getOrCreateThread_no_sends in E1 as [E1 _].
  exists (chat_sends rest). unfold chat_sends at 1. rewrite omap_app.
  fold (chat_sends (calls s1)). fold (chat_sends rest). rewrite E1.
  split; [done|].
  destruct Hsends as [-> |[reply [-> | ->]]]; (split; [simpl; lia|]);
    intros chatId txt reply_to Hin; exists u, t, m;
    repeat (apply elem_of_cons in Hin as [[= -> -> ->]|Hin]; [by auto|]);
    by apply not_elem_of_nil in Hin.
Qed.

(** X14.  The text is tested for emptiness before it is trimmed: a
    private text made of white space only passes, and is forwarded to the
    assistant as the empty string. *)
Theorem blank_private_text_is_forwarded_empty m raw :
  text m = Some raw → raw ≠ "" → all_ws raw = true →
  chat_type (chat m) = VStr "private" →
  route BOT_USERNAME (delivery m)
  = Forward (chat_id (chat m)) (default VUndefined (user_id <$> from m)) "" m.
Proof.
  intros Ht Hraw Hws Hp. rewrite (route_private _ m raw Ht Hraw Hp).
  unfold trim. by rewrite (trimStart_all_ws _ Hws).
Qed.

Lemma prefix_self_app t b : String.prefix t (t +:+ b) = true.
Proof.
  induction t as [|a t IH]; [apply prefix_nil|].
  rewrite append_cons. simpl. by destruct (ascii_dec a a).
Qed.

Lemma drop_length_app t b : drop (String.length t) (t +:+ b) = b.
Proof. induction t as [|a t IH]; [done|]. by rewrite append_cons. Qed.

(** X15.  Only the first mention is taken out: a group text that starts
    with the tag is forwarded as what follows the tag, trimmed, even when
    the tag occurs in it again. *)
Theorem leading_mention_is_removed_once m b :
  text m = Some (mentionTag BOT_USERNAME +:+ b) →
  chat_type (chat m) ≠ VStr "private" →
  ends_solid (mentionTag BOT_USERNAME) = true →
  route BOT_USERNAME (delivery m)
  = Forward (chat_id (chat m)) (default VUndefined (user_id <$> from m))
            (trim b) m.
Proof.
  intros Ht Hp Hend.
  assert (mentionTag BOT_USERNAME +:+ b ≠ "") as Hraw by done.
  rewrite (route_group _ m _ Ht Hraw Hp).
  rewrite (includes_trim _ _ (tag_starts_solid BOT_USERNAME) Hend).
  assert (includes (mentionTag BOT_USERNAME +:+ b) (mentionTag BOT_USERNAME)
          = true) as ->.
  { destruct (mentionTag BOT_USERNAME +:+ b) eqn:E; [done|].
    rewrite includes_cons, <- E. by rewrite prefix_self_app. }
  rewrite (normalize_trim_first _ _ (tag_starts_solid BOT_USERNAME) Hend).
  do 2 f_equal.
  destruct (mentionTag BOT_USERNAME +:+ b) eqn:E; [done|].
  rewrite replace_cons, <- E, prefix_self_app.
  change ("" +:+ ?x) with x. apply drop_length_app.
Qed.

(** X16.  A delivery from a pair that has its thread creates none and
    writes nothing: the map and the file are left as they were, and the
    first call made appends the text to the thread the pair has. *)
Theorem known_pair_goes_to_its_thread req c u t m (s : State W) :
  route BOT_USERNAME req = Forward c u t m →
  truthy (property (threads s) (getThreadKey c u)) = true →
  let s' := (webhook world BOT_USERNAME ASSISTANT_ID req s).2 in
  threads s' = threads s ∧ file s' = file s ∧
  store_calls (calls s') = store_calls (calls s) ∧
  ∃ rest, calls s'
          = (calls s ++
             MessagesCreate (property (threads s) (getThreadKey c u)) "user" t
             :: rest)%list.
Proof.
  intros Er Hhit s'. subst s'. rewrite (webhook_state_forward _ _ _ _ _ _ Er).
  destruct (answer_thread world ASSISTANT_ID c u t m s _ _ (surjective_pairing _))
    as (r0 & s0 & E0 & Et & Ef).
  destruct (answer_calls c u t m s)
    as (r1 & s1 & rest & E1 & Ec & Hst & _ & Hfirst).
  rewrite (getOrCreateThread_hit world _ _ _ Hhit) in E0, E1.
  injection E0 as <- <-. injection E1 as <- <-.
  split; [done|]. split; [done|]. split.
  - rewrite Ec. unfold store_calls at 1. rewrite omap_app.
    fold (store_calls rest). rewrite Hst. by rewrite app_nil_r.
  - destruct (Hfirst _ eq_refl) as [rest' ->]. by exists rest'.
Qed.

End WebhookExtras.

(** ** Start-up *)

Section StartupExtras.

Import JsString.



Lemma startup_bot_username env f fetch srv :
  startup env f fetch = Listening srv →
  srv_BOT_USERNAME srv = default "ScopeShield_Bot" (env_BOT_USERNAME env).
Proof.
  unfold startup. destruct (_ || _); [done|].
  destruct (fetch _ _); [|done]. by intros [= <-].
Qed.

(** X18.  The default of [BOT_USERNAME] stands in for a variable that
    is not set, not for one that is set to the empty string: the server
    then takes the bare "@" for the mention tag, and answers every group
    text with an "@" in it, after taking the first "@" out. *)
Theorem empty_bot_username_answers_every_at env f fetch srv m raw :
  startup env f fetch = Listening srv →
  env_BOT_USERNAME env = Some "" →
  text m = Some raw →
  chat_type (chat m) ≠ VStr "private" →
  includes raw "@" = true →
  route (srv_BOT_USERNAME srv) (delivery m)
  = Forward (chat_id (chat m)) (default VUndefined (user_id <$> from m))
            (trim (replace raw "@" "")) m.
Proof.
  intros Es Eu Ht Hp Hin.
  rewrite (startup_bot_username _ _ _ _ Es), Eu. simpl.
  assert (raw ≠ "") as Hraw by (by intros ->).
  rewrite (route_group "" m raw Ht Hraw Hp).
  change (mentionTag "") with "@".
  rewrite (includes_trim "@" raw eq_refl eq_refl), Hin.
  by rewrite (normalize_trim_first "@" raw eq_refl eq_refl).
Qed.

End StartupExtras.

(** ** The further properties on concrete runs *)






Lemma keys_are_never_removed_witness :
  let s := (webhook (calm "Sure.") "ScopeShield_Bot" "asst_1"
              (delivery (text_message "private" 5 (Some 9) "hi"))
              (boot Absent 0%Z)).2 in
  let s' := (webhook transport_down "ScopeShield_Bot" "asst_1"
               (delivery (text_message "private" 6 (Some 10) "hello"))
               s).2 in
  dom (threads s) ⊆ dom (threads s').
Proof.
  intros s s'.
  apply (keys_are_never_removed transport_down "ScopeShield_Bot" "asst_1").
  apply run_webhook, run_here.
Defined.

Lemma falsy_entry_is_replaced_witness :
  let s := boot (Json {[ "1:2" := VStr "" ]}) 0%Z in
  let s' := (getOrCreateThread (calm "Sure.") (VNum 1) (VNum 2) s).2 in
  threads s' !! "1:2" = Some (VStr "thread_0") ∧
  size (threads s') = size (threads s).
Proof.
  intros s s'.
  destruct (falsy_entry_is_replaced (calm "Sure.") (VNum 1) (VNum 2) s
              (VStr "") (VStr "thread_0") s' eq_refl eq_refl eq_refl)
    as (H1 & H2 & _).
  split; [exact H1|exact H2].
Defined.

Lemma other_pairs_are_untouched_witness :
  let s := boot (Json {[ "1:23" := VStr "thread_A" ]}) 0%Z in
  let s' := (getOrCreateThread (calm "Sure.") (VNum 12) (VNum 3) s).2 in
  threads s' !! "1:23" = Some (VStr "thread_A").
Proof.
  intros s s'.
  refine (eq_trans
            (other_pairs_are_untouched (calm "Sure.") (VNum 12) (VNum 3)
               (VNum 1) (VNum 23) s
               (getOrCreateThread (calm "Sure.") (VNum 12) (VNum 3) s).1 s'
               eq_refl eq_refl eq_refl eq_refl _ eq_refl) eq_refl).
  discriminate.
Defined.

Lemma unfinished_run_is_an_error_witness :
  (runAssistant (run_ends "requires_action") "asst_1" (VNum 5) (VNum 9) "hi"
     (boot Absent 0%Z)).1
  = Thrown "Assistant run failed with status: requires_action".
Proof.
  refine (f_equal fst
            (unfinished_run_is_an_error (run_ends "requires_action") "asst_1"
               (VNum 5) (VNum 9) "hi" (boot Absent 0%Z) (VStr "thread_0")
               (getOrCreateThread (run_ends "requires_action") (VNum 5)
                  (VNum 9) (boot Absent 0%Z)).2
               1%Z "requires_action" 1%Z eq_refl eq_refl eq_refl _)).
  discriminate.
Defined.

Lemma assistant_is_asked_in_three_calls_witness :
  calls (runAssistant (calm "Sure.") "asst_1" (VNum 5) (VNum 9) "hi"
           (boot (Json {[ "5:9" := VStr "thread_A" ]}) 0%Z)).2
  = [MessagesCreate (VStr "thread_A") "user" "hi";
     RunsCreateAndPoll (VStr "thread_A") "asst_1";
     MessagesList (VStr "thread_A") 5].
Proof.
  exact (f_equal (λ r, calls r.2)
           (assistant_is_asked_in_three_calls (calm "Sure.") "asst_1"
              (VNum 5) (VNum 9) "hi"
              (boot (Json {[ "5:9" := VStr "thread_A" ]}) 0%Z)
              (VStr "thread_A")
              (boot (Json {[ "5:9" := VStr "thread_A" ]}) 0%Z)
              0%Z 0%Z [assistant_says "Sure."] 0%Z
              eq_refl eq_refl eq_refl eq_refl)).
Defined.

Lemma reply_comes_from_first_assistant_message_witness :
  reply_text [user_says "chart please"; image_then_text;
              assistant_says "An older answer."]
  = "No response generated.".
Proof.
  refine (eq_trans
            (reply_comes_from_first_assistant_message
               [user_says "chart please"] image_then_text
               [assistant_says "An older answer."] _ eq_refl) eq_refl).
  intros x Hx. apply list_elem_of_singleton in Hx. subst x. discriminate.
Defined.

Lemma delivery_without_text_is_only_acknowledged_witness :
  webhook (calm "Sure.") "ScopeShield_Bot" "asst_1"
    {| body_message := None |} (boot Absent 0%Z)
  = (Returned (sendStatus 200), boot Absent 0%Z).
Proof.
  exact (delivery_without_text_is_only_acknowledged (calm "Sure.")
           "ScopeShield_Bot" "asst_1" {| body_message := None |}
           (boot Absent 0%Z) (or_introl eq_refl)).
Defined.

Lemma reply_is_sent_as_a_reply_witness :
  ∃ s', webhook (calm "Sure.") "ScopeShield_Bot" "asst_1"
          (delivery (text_message "private" 5 (Some 9) "hi")) (boot Absent 0%Z)
        = (Returned (sendStatus 200), s') ∧
        chat_sends (calls s') = [(VNum 5, "Sure.", Some (VNum 7))] ∧
        console s' = [].
Proof.
  destruct (reply_is_sent_as_a_reply (calm "Sure.") "ScopeShield_Bot" "asst_1"
              (delivery (text_message "private" 5 (Some 9) "hi"))
              (VNum 5) (VNum 9) "hi" (text_message "private" 5 (Some 9) "hi")
              (boot Absent 0%Z) "Sure."
              (runAssistant (calm "Sure.") "asst_1" (VNum 5) (VNum 9) "hi"
                 (boot Absent 0%Z)).2
              1%Z eq_refl eq_refl eq_refl)
    as (s' & E & Hs & Hc & _).
  exists s'. split; [exact E|]. split; [exact Hs|exact Hc].
Defined.

Lemma refused_reply_falls_back_witness :
  ∃ s', webhook (reply_refused "Sure.") "ScopeShield_Bot" "asst_1"
          (delivery (text_message "private" 5 (Some 9) "hi")) (boot Absent 0%Z)
        = (Returned (sendStatus 200), s') ∧
        chat_sends (calls s')
        = [(VNum 5, "Sure.", Some (VNum 7));
           (VNum 5, "Error processing your request.", None)].
Proof.
  destruct (refused_reply_falls_back (reply_refused "Sure.")
              "ScopeShield_Bot" "asst_1"
              (delivery (text_message "private" 5 (Some 9) "hi"))
              (VNum 5) (VNum 9) "hi" (text_message "private" 5 (Some 9) "hi")
              (boot Absent 0%Z) "Sure."
              (runAssistant (reply_refused "Sure.") "asst_1" (VNum 5) (VNum 9)
                 "hi" (boot Absent 0%Z)).2
              "ETELEGRAM: 400 Bad Request" 1%Z 1%Z
              eq_refl eq_refl eq_refl eq_refl)
    as (s' & E & Hs & _).
  exists s'. split; [exact E|exact Hs].
Defined.

Lemma blank_private_text_is_forwarded_empty_witness :
  route "ScopeShield_Bot" (delivery (text_message "private" 5 (Some 9) "   "))
  = Forward (VNum 5) (VNum 9) "" (text_message "private" 5 (Some 9) "   ").
Proof.
  refine (blank_private_text_is_forwarded_empty "ScopeShield_Bot"
            (text_message "private" 5 (Some 9) "   ") "   "
            eq_refl _ eq_refl eq_refl).
  discriminate.
Defined.

Lemma leading_mention_is_removed_once_witness :
  route "ScopeShield_Bot"
    (delivery (text_message "group" 5 (Some 9)
                 "@ScopeShield_Bot @ScopeShield_Bot are you there?"))
  = Forward (VNum 5) (VNum 9) "@ScopeShield_Bot are you there?"
      (text_message "group" 5 (Some 9)
         "@ScopeShield_Bot @ScopeShield_Bot are you there?").
Proof.
  refine (leading_mention_is_removed_once "ScopeShield_Bot"
            (text_message "group" 5 (Some 9)
               "@ScopeShield_Bot @ScopeShield_Bot are you there?")
            " @ScopeShield_Bot are you there?" eq_refl _ eq_refl).
  discriminate.
Defined.

Lemma known_pair_goes_to_its_thread_witness :
  let s := boot (Json {[ "5:9" := VStr "thread_A" ]}) 0%Z in
  let s' := (webhook (calm "Sure.") "ScopeShield_Bot" "asst_1"
               (delivery (text_message "private" 5 (Some 9) "hi")) s).2 in
  threads s' = threads s ∧ file s' = file s ∧
  store_calls (calls s') = [].
Proof.
  intros s s'.
  destruct (known_pair_goes_to_its_thread (calm "Sure.") "ScopeShield_Bot"
              "asst_1" (delivery (text_message "private" 5 (Some 9) "hi"))
              (VNum 5) (VNum 9) "hi" (text_message "private" 5 (Some 9) "hi")
              s eq_refl eq_refl)
    as (H1 & H2 & H3 & _).
  split; [exact H1|]. split; [exact H2|exact H3].
Defined.

Lemma empty_bot_username_answers_every_at_witness :
  ∃ srv, startup nameless_env Garbled (λ _ _, Returned 401%Z) = Listening srv ∧
         route (srv_BOT_USERNAME srv)
           (delivery (text_message "group" 5 (Some 9) "mail me at a@b.c"))
         = Forward (VNum 5) (VNum 9) "mail me at ab.c"
             (text_message "group" 5 (Some 9) "mail me at a@b.c").
Proof.
  eexists. split; [reflexivity|].
  refine (empty_bot_username_answers_every_at nameless_env Garbled
            (λ _ _, Returned 401%Z) _
            (text_message "group" 5 (Some 9) "mail me at a@b.c")
            "mail me at a@b.c" eq_refl eq_refl eq_refl _ eq_refl).
  discriminate.
Defined.
